(** * Google Assistant smart-home translation layer

    A shallow embedding of
    [homeassistant/components/google_assistant/smart_home.py]:
    [entity_to_device] (device discovery), [query_device] (state query) and
    [determine_service] (command execution), together with the fragment of
    Python's dynamic semantics these three functions rely on: dictionaries
    with [get], truthiness, [is True], bitwise [&], true division, float
    multiplication, [min], [round] and [int].

    Python floats are IEEE 754 binary64 numbers.  They are modelled with the
    executable specification of the Standard Library ([SpecFloat]), so every
    rounding step of the source is carried out bit for bit. *)

From Stdlib Require Import ZArith Lia SpecFloat Ascii String.
From stdpp Require Import gmap strings list.

Open Scope Z_scope.

(** ** Python values, exceptions *)

#[local] Set Warnings "-register-all".

Inductive value :=
| VNone
| VBool (b : bool)
| VInt (n : Z)
| VFloat (x : spec_float)
| VStr (s : string)
| VList (l : list value).

Inductive exn := TypeError | ValueError | OverflowError | ZeroDivisionError.

(** A Python expression either yields a value or raises. *)
Inductive result (A : Type) :=
| Ok (a : A)
| Raise (e : exn).
Arguments Ok {A} a.
Arguments Raise {A} e.

#[global] Instance result_ret : MRet result := fun _ a => Ok a.
#[global] Instance result_bind : MBind result := fun _ _ f r =>
  match r with
  | Ok a => f a
  | Raise e => Raise e
  end.

(** [d.get(k)] and [d.get(k, default)] on a dictionary with string keys. *)
Definition dict_get (d : gmap string value) (k : string) : value :=
  match d !! k with
  | Some v => v
  | None => VNone
  end.
Definition dict_get_default (d : gmap string value) (k : string) (dflt : value)
  : value :=
  match d !! k with
  | Some v => v
  | None => dflt
  end.

(** ** Floats *)

Module Float.

Definition prec : Z := 53.
Definition emax : Z := 1024.

Definition mul := SFmul prec emax.
Definition div := SFdiv prec emax.
Definition ltb := SFltb.
Definition leb := SFleb.
Definition valid := valid_binary prec emax.

(** The float nearest to an integer (ties to even); an infinity when
    the integer is out of range. *)
Definition of_Z (n : Z) : spec_float := binary_normalize prec emax n 0 false.

(** An integer as an unrounded mantissa with exponent 0. *)
Definition exact (n : Z) : spec_float :=
  match n with
  | Z0 => S754_zero false
  | Zpos m => S754_finite false m 0
  | Zneg m => S754_finite true m 0
  end.

Definition zero : spec_float := S754_zero false.
Definition one : spec_float := Eval vm_compute in of_Z 1.
Definition half : spec_float := Eval vm_compute in div (of_Z 1) (of_Z 2).

Definition is_zero (x : spec_float) : bool :=
  match x with
  | S754_zero _ => true
  | _ => false
  end.

(** The integer part of a finite float, towards zero. *)
Definition trunc (s : bool) (m : positive) (e : Z) : Z :=
  cond_Zopp s
    match e with
    | Zneg k => Zpos m / 2 ^ Zpos k
    | _ => Zpos m * 2 ^ e
    end.

(** The integer nearest to a finite float, ties to the even one. *)
Definition nearest_even (s : bool) (m : positive) (e : Z) : Z :=
  cond_Zopp s
    match e with
    | Zneg k =>
        let q := Zpos m / 2 ^ Zpos k in
        let r := Zpos m mod 2 ^ Zpos k in
        match 2 * r ?= 2 ^ Zpos k with
        | Lt => q
        | Eq => if Z.even q then q else q + 1
        | Gt => q + 1
        end
    | _ => Zpos m * 2 ^ e
    end.

(** [n < x] for an integer [n] and a float [x], compared exactly. *)
Definition Z_ltb (n : Z) (x : spec_float) : bool :=
  match x with
  | S754_nan => false
  | S754_infinity s => negb s
  | S754_zero _ => n <? 0
  | S754_finite s m e =>
      match e with
      | Zneg k => n * 2 ^ Zpos k <? cond_Zopp s (Zpos m)
      | _ => n <? cond_Zopp s (Zpos m) * 2 ^ e
      end
  end.

End Float.

(** ** Python's numeric operations, as far as the module uses them *)

(** [bool] is a subclass of [int]; arithmetic sees [True] as 1. *)
Inductive num :=
| NInt (n : Z)
| NFloat (x : spec_float).

Definition as_num (v : value) : option num :=
  match v with
  | VBool b => Some (NInt (Z.b2z b))
  | VInt n => Some (NInt n)
  | VFloat x => Some (NFloat x)
  | _ => None
  end.

(** [float(n)] as done implicitly by mixed arithmetic. *)
Definition float_of_int (n : Z) : result spec_float :=
  match Float.of_Z n with
  | S754_infinity _ => Raise OverflowError
  | x => Ok x
  end.

(** [v / k] for an [int] [k].  Between two ints Python returns the
    correctly rounded quotient; a float dividend makes [k] a float first.
    Anything that is not a number raises [TypeError]. *)
Definition py_truediv (v : value) (k : Z) : result spec_float :=
  match as_num v with
  | None => Raise TypeError
  | Some (NInt n) =>
      if k =? 0 then Raise ZeroDivisionError
      else match Float.div (Float.exact n) (Float.exact k) with
           | S754_infinity _ => Raise OverflowError
           | q => Ok q
           end
  | Some (NFloat x) =>
      y ← float_of_int k;
      if Float.is_zero y then Raise ZeroDivisionError
      else Ok (Float.div x y)
  end.

(** [x * k] and [k * x] for a float [x] and an [int] [k]. *)
Definition float_mul_int (x : spec_float) (k : Z) : result spec_float :=
  y ← float_of_int k; Ok (Float.mul x y).
Definition int_mul_float (k : Z) (x : spec_float) : result spec_float :=
  y ← float_of_int k; Ok (Float.mul y x).

(** [a * k] for a number [a] and an [int] [k]. *)
Definition num_mul_int (a : num) (k : Z) : result num :=
  match a with
  | NInt n => Ok (NInt (n * k))
  | NFloat x => y ← float_mul_int x k; Ok (NFloat y)
  end.

(** [int(x)] for a float [x]. *)
Definition py_int (x : spec_float) : result Z :=
  match x with
  | S754_zero _ => Ok 0
  | S754_infinity _ => Raise OverflowError
  | S754_nan => Raise ValueError
  | S754_finite s m e => Ok (Float.trunc s m e)
  end.

(** [round(a)] with a single argument: an [int] result, ties to even. *)
Definition py_round (a : num) : result Z :=
  match a with
  | NInt n => Ok n
  | NFloat (S754_zero _) => Ok 0
  | NFloat (S754_infinity _) => Raise OverflowError
  | NFloat S754_nan => Raise ValueError
  | NFloat (S754_finite s m e) => Ok (Float.nearest_even s m e)
  end.

(** [min(x, v)] for a float [x]: [v] when [v < x], else [x]. *)
Definition py_min_float (x : spec_float) (v : value) : result num :=
  match as_num v with
  | None => Raise TypeError
  | Some (NInt n) => Ok (if Float.Z_ltb n x then NInt n else NFloat x)
  | Some (NFloat y) => Ok (if Float.ltb y x then NFloat y else NFloat x)
  end.

(** [k & v] for an [int] [k]. *)
Definition py_and_int (k : Z) (v : value) : result Z :=
  match v with
  | VBool b => Ok (Z.land k (Z.b2z b))
  | VInt n => Ok (Z.land k n)
  | _ => Raise TypeError
  end.

(** Truth value of an object, as tested by [if], [or] and [and]. *)
Definition truthy (v : value) : bool :=
  match v with
  | VNone => false
  | VBool b => b
  | VInt n => negb (n =? 0)
  | VFloat x => negb (Float.is_zero x)
  | VStr s => negb (String.eqb s "")
  | VList l => match l with [] => false | _ => true end
  end.

(** [a or b]. *)
Definition py_or (a b : value) : value := if truthy a then a else b.

(** [v is True]. *)
Definition is_True (v : value) : bool :=
  match v with
  | VBool true => true
  | _ => false
  end.

(** [s.split(sep)] for a one-character separator. *)
Fixpoint split_on (sep : ascii) (s : string) : list string :=
  match s with
  | EmptyString => [EmptyString]
  | String c s' =>
      if Ascii.eqb c sep then EmptyString :: split_on sep s'
      else match split_on sep s' with
           | [] => [String c EmptyString]
           | w :: ws => String c w :: ws
           end
  end.

(** A dictionary display [{k1: v1, k2: v2, ...}] whose items are later
    iterated, in insertion order: a key keeps the position of its first
    occurrence and the value of its last one. *)
Fixpoint dict_set {V} (k : N) (v : V) (d : list (N * V)) : list (N * V) :=
  match d with
  | [] => [(k, v)]
  | (k', v') :: d' =>
      if N.eqb k' k then (k', v) :: d' else (k', v') :: dict_set k v d'
  end.

Definition dict_display {V} (items : list (N * V)) : list (N * V) :=
  fold_left (fun d kv => dict_set kv.1 kv.2 d) items [].

(** ** Names imported by the module

    [homeassistant.const], the sibling [const] module and the component
    packages [switch], [light], [cover], [media_player], [group] and [fan]
    are not part of the translated file.  The development is parametric in
    the constants taken from them.  The [SUPPORT_*] feature flags are bit
    masks, hence natural numbers. *)
Class Imports := {
  ATTR_SUPPORTED_FEATURES : string;
  ATTR_ENTITY_ID : string;
  CONF_FRIENDLY_NAME : string;
  STATE_OFF : string;
  SERVICE_TURN_OFF : string;
  SERVICE_TURN_ON : string;
  ATTR_GOOGLE_ASSISTANT_NAME : string;
  COMMAND_BRIGHTNESS : string;
  COMMAND_ONOFF : string;
  PREFIX_TRAITS : string;
  PREFIX_TYPES : string;
  CONF_ALIASES : string;
  group_DOMAIN : string;
  switch_DOMAIN : string;
  fan_DOMAIN : string;
  light_DOMAIN : string;
  light_ATTR_BRIGHTNESS : string;
  light_SUPPORT_BRIGHTNESS : N;
  light_SUPPORT_RGB_COLOR : N;
  light_SUPPORT_COLOR_TEMP : N;
  cover_DOMAIN : string;
  cover_SUPPORT_SET_POSITION : N;
  cover_SERVICE_SET_COVER_POSITION : string;
  cover_SERVICE_OPEN_COVER : string;
  cover_SERVICE_CLOSE_COVER : string;
  media_player_DOMAIN : string;
  media_player_SUPPORT_VOLUME_SET : N;
  media_player_ATTR_MEDIA_VOLUME_LEVEL : string;
  media_player_SERVICE_VOLUME_SET : string;
}.

(** ** Data *)

(** The state object handed to the module ([entity.entity_id],
    [entity.domain], [entity.state], [entity.attributes]). *)
Record Entity := {
  entity_id : string;
  domain : string;
  state : string;
  attributes : gmap string value;
}.

(** One entry of [MAPPING_COMPONENT]: [[actions schema, command, optional
    features]]; the third component is [None] or a dictionary from feature
    flag to trait, kept in iteration order. *)
Record ClassData := {
  schema : string;
  command : string;
  features : option (list (N * string));
}.

(** The dictionary built by [entity_to_device]. *)
Record DeviceName := {
  name : value;
  nicknames : option (list value);
}.

Record Device := {
  dev_id : string;
  dev_name : DeviceName;
  traits : list string;
  willReportState : bool;
  type : string;
}.

(** The dictionary built by [query_device]. *)
Record QueryResult := {
  on : bool;
  online : bool;
  brightness : Z;
}.

Section Translator.

Context `{Imports}.

Definition MAPPING_COMPONENT : gmap string ClassData :=
  fold_left (fun m kv => <[kv.1 := kv.2]> m)
    [ (group_DOMAIN, Build_ClassData "SCENE" "ActivateScene" None);
      (switch_DOMAIN, Build_ClassData "SWITCH" "OnOff" None);
      (fan_DOMAIN, Build_ClassData "SWITCH" "OnOff" None);
      (light_DOMAIN,
        Build_ClassData "LIGHT" "OnOff"
          (Some (dict_display
                   [ (light_SUPPORT_BRIGHTNESS, "Brightness");
                     (light_SUPPORT_RGB_COLOR, "ColorSpectrum");
                     (light_SUPPORT_COLOR_TEMP, "ColorTemperature") ])));
      (cover_DOMAIN,
        Build_ClassData "LIGHT" "OnOff"
          (Some (dict_display
                   [ (cover_SUPPORT_SET_POSITION, "Brightness") ])));
      (media_player_DOMAIN,
        Build_ClassData "LIGHT" "OnOff"
          (Some (dict_display
                   [ (media_player_SUPPORT_VOLUME_SET, "Brightness") ]))) ]
    ∅.

(** The loop [for feature, trait in class_data[2].items()] with its body
    [if feature & supported > 0: device['traits'].append(...)]. *)
Fixpoint add_traits (supported : value) (items : list (N * string))
    (traits : list string) : result (list string) :=
  match items with
  | [] => Ok traits
  | (feature, trait) :: items' =>
      x ← py_and_int (Z.of_N feature) supported;
      add_traits supported items'
        (if 0 <? x then traits ++ [PREFIX_TRAITS +:+ trait] else traits)
  end.

(** Convert a hass entity into a google actions device.  The warning
    sent to the logger when the aliases are not a list leaves the
    returned dictionary untouched and is not modelled. *)
Definition entity_to_device (entity : Entity) : result (option Device) :=
  match MAPPING_COMPONENT !! domain entity with
  | None => Ok None
  | Some class_data =>
      let type := PREFIX_TYPES +:+ schema class_data in
      let traits := [PREFIX_TRAITS +:+ command class_data] in
      let name :=
        py_or (dict_get (attributes entity) ATTR_GOOGLE_ASSISTANT_NAME)
              (dict_get (attributes entity) CONF_FRIENDLY_NAME) in
      let aliases := dict_get (attributes entity) CONF_ALIASES in
      let nicknames :=
        match aliases with
        | VList l => Some l
        | _ => None
        end in
      traits ←
        match features class_data with
        | Some ((_ :: _) as items) =>
            let supported :=
              dict_get_default (attributes entity) ATTR_SUPPORTED_FEATURES
                (VInt 0) in
            add_traits supported items traits
        | _ => Ok traits
        end;
      Ok (Some {| dev_id := entity_id entity;
                  dev_name := {| name := name; nicknames := nicknames |};
                  traits := traits;
                  willReportState := false;
                  type := type |})
  end.

(** Take an entity and return a properly formatted device object. *)
Definition query_device (entity : Entity) : result QueryResult :=
  let final_state := negb (String.eqb (state entity) STATE_OFF) in
  let final_brightness :=
    dict_get_default (attributes entity) light_ATTR_BRIGHTNESS
      (VInt (if final_state then 255 else 0)) in
  final_brightness ←
    (if String.eqb (domain entity) media_player_DOMAIN then
       let level :=
         dict_get_default (attributes entity)
           media_player_ATTR_MEDIA_VOLUME_LEVEL
           (VFloat (if final_state then Float.one else Float.zero)) in
       m ← py_min_float Float.one level;
       p ← num_mul_int m 255;
       b ← py_round p;
       Ok (VInt b)
     else Ok final_brightness);
  let final_brightness :=
    match final_brightness with
    | VNone => VInt (if final_state then 255 else 0)
    | v => v
    end in
  q ← py_truediv final_brightness 255;
  final_brightness ← int_mul_float 100 q;
  b ← py_int final_brightness;
  Ok {| on := final_state; online := true; brightness := b |}.

(** Determine service and service_data. *)
Definition determine_service (entity_id command : string)
    (params : gmap string value) : result (string * gmap string value) :=
  let domain := default EmptyString (head (split_on "." entity_id)) in
  let service_data : gmap string value :=
    {[ ATTR_ENTITY_ID := VStr entity_id ]} in
  if String.eqb domain "media_player" && String.eqb command COMMAND_BRIGHTNESS
  then
    let brightness := dict_get_default params "brightness" (VInt 0) in
    volume ← py_truediv brightness 100;
    Ok (media_player_SERVICE_VOLUME_SET,
        <["volume" := VFloat volume]> service_data)
  else if String.eqb domain "cover" && String.eqb command COMMAND_BRIGHTNESS
  then
    Ok (cover_SERVICE_SET_COVER_POSITION,
        <["position" := dict_get_default params "brightness" (VInt 0)]>
          service_data)
  else if String.eqb domain "cover" && String.eqb command COMMAND_ONOFF
  then
    if is_True (dict_get params "on")
    then Ok (cover_SERVICE_OPEN_COVER, service_data)
    else Ok (cover_SERVICE_CLOSE_COVER, service_data)
  else if String.eqb command COMMAND_BRIGHTNESS
  then
    let brightness := dict_get params "brightness" in
    q ← py_truediv brightness 100;
    p ← float_mul_int q 255;
    b ← py_int p;
    Ok (SERVICE_TURN_ON, <["brightness" := VInt b]> service_data)
  else if String.eqb COMMAND_ONOFF command && is_True (dict_get params "on")
  then Ok (SERVICE_TURN_ON, service_data)
  else Ok (SERVICE_TURN_OFF, service_data).

End Translator.

(** One assignment of the imported names, used to run the functions on
    concrete inputs: the values the names have in the Home Assistant code
    base.  The properties proved below hold for every assignment. *)
#[global] Instance home_assistant : Imports := {|
  ATTR_SUPPORTED_FEATURES := "supported_features";
  ATTR_ENTITY_ID := "entity_id";
  CONF_FRIENDLY_NAME := "friendly_name";
  STATE_OFF := "off";
  SERVICE_TURN_OFF := "turn_off";
  SERVICE_TURN_ON := "turn_on";
  ATTR_GOOGLE_ASSISTANT_NAME := "google_assistant_name";
  COMMAND_BRIGHTNESS := "action.devices.commands.BrightnessAbsolute";
  COMMAND_ONOFF := "action.devices.commands.OnOff";
  PREFIX_TRAITS := "action.devices.traits.";
  PREFIX_TYPES := "action.devices.types.";
  CONF_ALIASES := "aliases";
  group_DOMAIN := "group";
  switch_DOMAIN := "switch";
  fan_DOMAIN := "fan";
  light_DOMAIN := "light";
  light_ATTR_BRIGHTNESS := "brightness";
  light_SUPPORT_BRIGHTNESS := 1;
  light_SUPPORT_RGB_COLOR := 16;
  light_SUPPORT_COLOR_TEMP := 2;
  cover_DOMAIN := "cover";
  cover_SUPPORT_SET_POSITION := 4;
  cover_SERVICE_SET_COVER_POSITION := "set_cover_position";
  cover_SERVICE_OPEN_COVER := "open_cover";
  cover_SERVICE_CLOSE_COVER := "close_cover";
  media_player_DOMAIN := "media_player";
  media_player_SUPPORT_VOLUME_SET := 4;
  media_player_ATTR_MEDIA_VOLUME_LEVEL := "volume_level";
  media_player_SERVICE_VOLUME_SET := "volume_set";
|}.

(** * Notions used to state the properties *)

(** ** The domain of an entity id *)

(** The prefix of a string before the first occurrence of [sep]; the whole
    string when [sep] does not occur. *)
Fixpoint prefix_before (sep : ascii) (s : string) : string :=
  match s with
  | EmptyString => EmptyString
  | String c s' =>
      if Ascii.eqb c sep then EmptyString else String c (prefix_before sep s')
  end.

(** The argument dictionary every branch of [determine_service] starts
    from. *)
Definition base_args `{Imports} (entity_id : string) : gmap string value :=
  {[ ATTR_ENTITY_ID := VStr entity_id ]}.

(** [brightness / 100 * 255] on a number, as the floats compute it. *)
Definition percent_to_255 (a : num) : spec_float :=
  Float.mul
    match a with
    | NInt n => Float.div (Float.exact n) (Float.exact 100)
    | NFloat x => Float.div x (Float.of_Z 100)
    end
    (Float.of_Z 255).

(** [int(v / 100 * 255)], the computation of the generic brightness
    branch of [determine_service]. *)
Definition brightness_chain (v : value) : result Z :=
  q ← py_truediv v 100; p ← float_mul_int q 255; py_int p.

(** ** Finite checks over integer ranges *)

(** The integers from [lo] to [hi]. *)
Definition Z_range (lo hi : Z) : list Z :=
  map (fun i => lo + Z.of_nat i) (seq 0 (Z.to_nat (hi - lo + 1))).

(** Does [int(n / 100 * 255)] return the integer quotient of [n * 255] by
    100? *)
Definition check_percent_to_255 (n : Z) : bool :=
  match brightness_chain (VInt n) with
  | Ok b => b =? n * 255 / 100
  | Raise _ => false
  end.

(** ** Device discovery *)

(** An entity with its feature bitmask set to [m]. *)
Definition with_features `{Imports} (e : Entity) (m : Z) : Entity :=
  {| entity_id := entity_id e;
     domain := domain e;
     state := state e;
     attributes := <[ATTR_SUPPORTED_FEATURES := VInt m]> (attributes e) |}.

(** Every bit set in [m1] is set in [m2]. *)
Definition bits_subset (m1 m2 : Z) : Prop :=
  forall i, 0 <= i -> Z.testbit m1 i = true -> Z.testbit m2 i = true.

(** The conditional traits of a capability entry under a bitmask, in the
    words of the specification: a declared trait is included iff its flag
    ANDed with the bitmask is nonzero. *)
Definition conditional_traits `{Imports} (cd : ClassData) (bitmask : Z)
  : list string :=
  map (fun ft : N * string => PREFIX_TRAITS +:+ ft.2)
    (List.filter
       (fun ft : N * string => negb (Z.land (Z.of_N ft.1) bitmask =? 0))
       (match features cd with Some items => items | None => [] end)).

(** The feature bitmask read by [entity.attributes.get(..., 0)], when it is
    an [int]. *)
Definition feature_mask `{Imports} (e : Entity) : option Z :=
  match attributes e !! ATTR_SUPPORTED_FEATURES with
  | None => Some 0
  | Some (VInt m) => Some m
  | Some (VBool b) => Some (Z.b2z b)
  | Some _ => None
  end.

(** The bitmask can be combined with the declared flags: it is an [int],
    or the entry declares no conditional trait and it is never read. *)
Definition bitmask_readable `{Imports} (e : Entity) (cd : ClassData) : Prop :=
  match features cd with
  | Some (_ :: _) => is_Some (feature_mask e)
  | _ => True
  end.

(** ** State query *)

(** A float in the closed interval from 0.0 to 1.0. *)
Definition unit_float (x : spec_float) : Prop :=
  Float.valid x = true
  /\ Float.leb Float.zero x = true
  /\ Float.leb x Float.one = true.

(** [round(min(1.0, level) * 255)], the volume conversion of
    [query_device]. *)
Definition volume_to_255 (level : value) : result Z :=
  m ← py_min_float Float.one level; p ← num_mul_int m 255; py_round p.

(** [int(100 * (final_brightness / 255))], the percent scaling of
    [query_device]. *)
Definition percent_chain (v : value) : result Z :=
  q ← py_truediv v 255; p ← int_mul_float 100 q; py_int p.

(** Does the percent scaling of [b] return the integer quotient of
    [100 * b] by 255? *)
Definition check_percent (b : Z) : bool :=
  match percent_chain (VInt b) with
  | Ok n => n =? 100 * b / 255
  | Raise _ => false
  end.

(** [entity.state != STATE_OFF]. *)
Definition is_on `{Imports} (e : Entity) : bool :=
  negb (String.eqb (state e) STATE_OFF).

(** The brightness a non media player is scaled from: the attribute, or
    255 when on and 0 when off if the attribute is missing or [None]. *)
Definition brightness_source `{Imports} (e : Entity) : value :=
  match attributes e !! light_ATTR_BRIGHTNESS with
  | None | Some VNone => VInt (if is_on e then 255 else 0)
  | Some v => v
  end.

(** The volume level of a media player, with its default. *)
Definition volume_level `{Imports} (e : Entity) : value :=
  match attributes e !! media_player_ATTR_MEDIA_VOLUME_LEVEL with
  | Some v => v
  | None => VFloat (if is_on e then Float.one else Float.zero)
  end.

(** Invariant of [shr_1] after [k] right shifts of the mantissa [M]: the
    record holds the quotient, and a round or sticky bit is set only when
    the shifted-out part is not zero. *)
Definition shifted (M k : Z) (rec : shr_record) : Prop :=
  shr_m rec = M / 2 ^ k
  /\ (shr_r rec || shr_s rec = true -> M mod 2 ^ k <> 0).

(** ** Entities used in the concrete runs *)

Definition kitchen_light (attrs : gmap string value) : Entity :=
  {| entity_id := "light.kitchen"; domain := "light"; state := "on";
     attributes := attrs |}.

Definition light_class_data : ClassData :=
  {| schema := "LIGHT"; command := "OnOff";
     features := Some [ (1%N, "Brightness"); (16%N, "ColorSpectrum");
                        (2%N, "ColorTemperature") ] |}.

Definition living_room_tv (st : string) (attrs : gmap string value) : Entity :=
  {| entity_id := "media_player.tv"; domain := "media_player"; state := st;
     attributes := attrs |}.

Definition hall_light (st : string) (attrs : gmap string value) : Entity :=
  {| entity_id := "light.hall"; domain := "light"; state := st;
     attributes := attrs |}.

(** ** Notions for the further properties *)

(** Helper to simplify format for response: the dictionary
    [{'requestId': request_id, 'payload': payload}]. *)
Record ActionsResponse (P : Type) := {
  requestId : string;
  payload : P;
}.
Arguments requestId {P} _.
Arguments payload {P} _.

Definition make_actions_response {P} (request_id : string) (payload : P)
  : ActionsResponse P :=
  {| requestId := request_id; payload := payload |}.

(** The services [determine_service] can name. *)
Definition services `{Imports} : list string :=
  [ media_player_SERVICE_VOLUME_SET; cover_SERVICE_SET_COVER_POSITION;
    cover_SERVICE_OPEN_COVER; cover_SERVICE_CLOSE_COVER;
    SERVICE_TURN_ON; SERVICE_TURN_OFF ].

(** The service of a result, or the exception raised. *)
Definition service_of (r : result (string * gmap string value))
  : result string :=
  match r with
  | Ok (service, _) => Ok service
  | Raise e => Raise e
  end.

(** Is [n / 100] a valid float between 0.0 and 1.0? *)
Definition check_volume (n : Z) : bool :=
  match py_truediv (VInt n) 100 with
  | Ok x =>
      Float.valid x && Float.leb Float.zero x && Float.leb x Float.one
  | Raise _ => false
  end.

(** The keys of [MAPPING_COMPONENT], in the order of the source. *)
Definition domains `{Imports} : list string :=
  [ group_DOMAIN; switch_DOMAIN; fan_DOMAIN; light_DOMAIN; cover_DOMAIN;
    media_player_DOMAIN ].

(** The feature dictionary of an entry, empty when there is none. *)
Definition declared `{Imports} (cd : ClassData) : list (N * string) :=
  match features cd with
  | Some items => items
  | None => []
  end.

(** The device [entity_to_device] assembles from an entry and a bitmask. *)
Definition built_device `{Imports} (e : Entity) (cd : ClassData) (m : Z)
  : Device :=
  {| dev_id := entity_id e;
     dev_name :=
       {| name :=
            py_or (dict_get (attributes e) ATTR_GOOGLE_ASSISTANT_NAME)
                  (dict_get (attributes e) CONF_FRIENDLY_NAME);
          nicknames :=
            match dict_get (attributes e) CONF_ALIASES with
            | VList l => Some l
            | _ => None
            end |};
     traits := (PREFIX_TRAITS +:+ command cd) :: conditional_traits cd m;
     willReportState := false;
     type := PREFIX_TYPES +:+ schema cd |}.

(** The bitmask [entity_to_device] works with: the attribute when it is an
    [int], 0 otherwise. *)
Definition effective_mask `{Imports} (e : Entity) : Z :=
  match feature_mask e with
  | Some m => m
  | None => 0
  end.

(** The values of [MAPPING_COMPONENT], in the order of [domains]. *)
Definition entries `{Imports} : list ClassData :=
  [ Build_ClassData "SCENE" "ActivateScene" None;
    Build_ClassData "SWITCH" "OnOff" None;
    Build_ClassData "SWITCH" "OnOff" None;
    Build_ClassData "LIGHT" "OnOff"
      (Some (dict_display
               [ (light_SUPPORT_BRIGHTNESS, "Brightness");
                 (light_SUPPORT_RGB_COLOR, "ColorSpectrum");
                 (light_SUPPORT_COLOR_TEMP, "ColorTemperature") ]));
    Build_ClassData "LIGHT" "OnOff"
      (Some (dict_display [ (cover_SUPPORT_SET_POSITION, "Brightness") ]));
    Build_ClassData "LIGHT" "OnOff"
      (Some (dict_display
               [ (media_player_SUPPORT_VOLUME_SET, "Brightness") ])) ].

(** Does the percent scaling of [b] return [100 * b] divided by 255 and
    truncated towards zero? *)
Definition check_quot (b : Z) : bool :=
  match percent_chain (VInt b) with
  | Ok n => n =? Z.quot (100 * b) 255
  | Raise _ => false
  end.

(** A brightness command of [n] percent followed by a state query of the
    light that took the resolved brightness: is the answer [n] or [n - 1],
    and [n] exactly for the multiples of 20? *)
Definition check_light_round_trip (n : Z) : bool :=
  match brightness_chain (VInt n) with
  | Ok b =>
      match percent_chain (VInt b) with
      | Ok r =>
          (n - 1 <=? r) && (r <=? n)
          && Bool.eqb (r =? n) (n mod 20 =? 0)
      | Raise _ => false
      end
  | Raise _ => false
  end.

(** The same for a media player and its volume. *)
Definition check_media_round_trip (n : Z) : bool :=
  match py_truediv (VInt n) 100 with
  | Ok x =>
      match volume_to_255 (VFloat x) with
      | Ok b =>
          match percent_chain (VInt b) with
          | Ok r => (n - 1 <=? r) && (r <=? n)
          | Raise _ => false
          end
      | Raise _ => false
      end
  | Raise _ => false
  end.

(** ** Entities and devices used in the further runs *)

Definition kitchen_17 : Entity :=
  kitchen_light {[ "supported_features" := VInt 17 ]}.

Definition kitchen_17_device : Device :=
  built_device kitchen_17 light_class_data 17.

Definition named_switch : Entity :=
  {| entity_id := "switch.pump"; domain := "switch"; state := "unavailable";
     attributes := {[ "google_assistant_name" := VStr "";
                      "friendly_name" := VStr "Pump";
                      "aliases" := VList [VStr "water"; VStr "well"] ]} |}.

(** ** Rounding as a function of the exact value

    Nonnegative floats and exact products are compared through their
    values in units of [2 ^ -1119], which are integers for every exponent
    the volume conversion meets. *)

(** [V / 2 ^ n] rounded to the nearest integer, ties to the even one. *)
Definition rne (V n : Z) : Z :=
  let q := V / 2 ^ n in
  let r := V mod 2 ^ n in
  match 2 * r ?= 2 ^ n with
  | Lt => q
  | Eq => if Z.even q then q else q + 1
  | Gt => q + 1
  end.

(** The exponent, in units of [2 ^ -1119], of the floats next to [V]. *)
Definition grid_shift (V : Z) : Z := Z.max (Zdigits2 V - 53) 45.

(** [V] rounded to the nearest float. *)
Definition round53 (V : Z) : Z := rne V (grid_shift V) * 2 ^ grid_shift V.

(** The value of a nonnegative float in units of [2 ^ -1119]. *)
Definition scaled (x : spec_float) : Z :=
  match x with
  | S754_finite false m e => Zpos m * 2 ^ (e + 1119)
  | _ => 0
  end.

(** State of [shr_1] after [k] right shifts of [M], bit for bit. *)
Definition shifted_exactly (M k : Z) (rec : shr_record) : Prop :=
  shr_m rec = M / 2 ^ k
  /\ (k = 0 -> shr_r rec = false /\ shr_s rec = false)
  /\ (0 < k ->
      shr_r rec = Z.odd (M / 2 ^ (k - 1))
      /\ shr_s rec = negb (M mod 2 ^ (k - 1) =? 0)).

(** Does the generic brightness computation of [n] return [n * 255]
    divided by 100 and truncated towards zero? *)
Definition check_brightness_quot (n : Z) : bool :=
  match brightness_chain (VInt n) with
  | Ok b => b =? Z.quot (n * 255) 100
  | Raise _ => false
  end.

(** ** Notions used for the media player levels and for float brightness *)

(** Does the percent scaling of [n * 255], the conversion of an [int]
    volume level [n] that [min] leaves as it is, return [100 * n]? *)
Definition check_int_level (n : Z) : bool :=
  match percent_chain (VInt (n * 255)) with
  | Ok p => p =? 100 * n
  | Raise _ => false
  end.

(** The specification's [floor(100 * b / 255)] for a nonnegative float
    [b], computed exactly on its mantissa and exponent. *)
Definition floor_percent_spec (b : spec_float) : Z :=
  match b with
  | S754_finite false m (Zneg k) => 100 * Zpos m / (255 * 2 ^ Zpos k)
  | S754_finite false m e => 100 * (Zpos m * 2 ^ e) / 255
  | _ => 0
  end.

(** The float [50.99999999999999], which is [7177611906121727 * 2 ^ -47]. *)
Definition almost_51 : spec_float :=
  S754_finite false 7177611906121727 (-47).

(** * Properties *)

Lemma split_on_head sep s : head (split_on sep s) = Some (prefix_before sep s).
Proof.
  induction s as [|c s IH]; simpl; [reflexivity|].
  destruct (Ascii.eqb c sep); [reflexivity|].
  destruct (split_on sep s) as [|w ws]; [discriminate IH|].
  simpl in *. congruence.
Qed.

Lemma domain_of_entity_id s :
  default EmptyString (head (split_on "." s)) = prefix_before "." s.
Proof. now rewrite split_on_head. Qed.

Lemma eqb_string_false (a b : string) : a <> b -> String.eqb a b = false.
Proof. intros Hne. now apply String.eqb_neq. Qed.

(** ** Command resolution *)

Section Resolve.

Context `{Imports}.

Implicit Types (entity_id command : string) (params : gmap string value).

(** On the generic brightness branch the function is the chain
    [int(brightness / 100 * 255)] applied to [params.get('brightness')]. *)
Lemma determine_service_generic_brightness entity_id params :
  prefix_before "." entity_id <> "media_player" ->
  prefix_before "." entity_id <> "cover" ->
  determine_service entity_id COMMAND_BRIGHTNESS params =
    (b ← brightness_chain (dict_get params "brightness");
     Ok (SERVICE_TURN_ON, <["brightness" := VInt b]> (base_args entity_id))).
Proof.
  intros Hmp Hcv. unfold determine_service, brightness_chain.
  rewrite domain_of_entity_id.
  rewrite (eqb_string_false _ _ Hmp), (eqb_string_false _ _ Hcv).
  cbn [andb]. rewrite String.eqb_refl.
  destruct (py_truediv _ 100) as [q|]; [|reflexivity].
  cbn [mbind result_bind].
  now destruct (float_mul_int q 255).
Qed.

(** Outside the cover domain, an on/off command or an unknown command. *)
Lemma determine_service_on_off entity_id command params :
  prefix_before "." entity_id <> "cover" ->
  command <> COMMAND_BRIGHTNESS ->
  determine_service entity_id command params =
    Ok (if String.eqb COMMAND_ONOFF command && is_True (dict_get params "on")
        then SERVICE_TURN_ON else SERVICE_TURN_OFF,
        base_args entity_id).
Proof.
  intros Hcv Hcmd. unfold determine_service.
  rewrite domain_of_entity_id.
  rewrite (eqb_string_false _ _ Hcv), (eqb_string_false _ _ Hcmd).
  rewrite andb_false_r. cbn [andb].
  now destruct (String.eqb COMMAND_ONOFF command && _).
Qed.

(** The cover domain with the on/off command. *)
Lemma determine_service_cover_on_off entity_id params :
  COMMAND_ONOFF <> COMMAND_BRIGHTNESS ->
  prefix_before "." entity_id = "cover" ->
  determine_service entity_id COMMAND_ONOFF params =
    Ok (if is_True (dict_get params "on")
        then cover_SERVICE_OPEN_COVER else cover_SERVICE_CLOSE_COVER,
        base_args entity_id).
Proof.
  intros Hcmd Hcv. unfold determine_service.
  rewrite domain_of_entity_id, Hcv.
  change (String.eqb "cover" "media_player") with false.
  change (String.eqb "cover" "cover") with true.
  rewrite (eqb_string_false _ _ Hcmd), String.eqb_refl. cbn [andb].
  now destruct (is_True _).
Qed.

(** Every command other than the brightness command returns. *)
Lemma determine_service_returns entity_id command params :
  command <> COMMAND_BRIGHTNESS ->
  exists r, determine_service entity_id command params = Ok r.
Proof.
  intros Hcmd. unfold determine_service.
  rewrite (eqb_string_false _ _ Hcmd), !andb_false_r.
  destruct (String.eqb _ "cover" && String.eqb command COMMAND_ONOFF).
  - destruct (is_True _); eexists; reflexivity.
  - destruct (String.eqb COMMAND_ONOFF command && _); eexists; reflexivity.
Qed.

Lemma is_True_get params :
  is_True (dict_get params "on") = true <-> params !! "on" = Some (VBool true).
Proof.
  unfold dict_get. destruct (params !! "on") as [[| [|] | | | |]|]; simpl;
    split; congruence.
Qed.

Lemma is_True_get_false params :
  params !! "on" <> Some (VBool true) -> is_True (dict_get params "on") = false.
Proof.
  intros Hne. destruct (is_True (dict_get params "on")) eqn:E; [|reflexivity].
  now apply is_True_get in E.
Qed.

End Resolve.

Lemma Z_range_check (P : Z -> bool) lo hi :
  forallb P (Z_range lo hi) = true ->
  forall n, lo <= n <= hi -> P n = true.
Proof.
  intros Hall n Hn. rewrite forallb_forall in Hall. apply Hall.
  unfold Z_range. apply in_map_iff. exists (Z.to_nat (n - lo)). split.
  - lia.
  - apply in_seq. lia.
Qed.

Lemma float_of_int_255 : float_of_int 255 = Ok (Float.of_Z 255).
Proof. reflexivity. Qed.

Lemma float_of_int_100 : float_of_int 100 = Ok (Float.of_Z 100).
Proof. reflexivity. Qed.

Lemma brightness_chain_num v a b :
  as_num v = Some a ->
  py_int (percent_to_255 a) = Ok b ->
  brightness_chain v = Ok b.
Proof.
  intros Hv Hb. unfold brightness_chain, py_truediv. rewrite Hv.
  destruct a as [n|x]; unfold percent_to_255 in Hb.
  - change (100 =? 0) with false. cbv iota.
    destruct (Float.div (Float.exact n) (Float.exact 100)) as [s|s| |s m e];
      exact Hb.
  - rewrite float_of_int_100. exact Hb.
Qed.

Lemma brightness_chain_percent n :
  0 <= n <= 100 -> brightness_chain (VInt n) = Ok (n * 255 / 100).
Proof.
  intros Hn.
  assert (Hc : check_percent_to_255 n = true).
  { revert n Hn. apply Z_range_check. vm_compute. reflexivity. }
  unfold check_percent_to_255 in Hc.
  destruct (brightness_chain (VInt n)) as [b|]; [|discriminate Hc].
  apply Z.eqb_eq in Hc. now subst.
Qed.

Section ResolveClaims.

Context `{Imports}.

Implicit Types (entity_id command : string) (params : gmap string value).

(** C1, with truncation in place of rounding.  For an entity id whose
    domain is neither [media_player] nor [cover] and a parameter bag with a
    numeric brightness, the brightness command resolves to
    [SERVICE_TURN_ON] with [brightness = int(brightness / 100 * 255)]
    whenever that integer exists: the float product is truncated towards
    zero, not rounded.  For an integer percentage [n] between 0 and 100 the
    result is the integer quotient [n * 255 / 100]. *)
Theorem C1_generic_brightness_truncates entity_id params :
  prefix_before "." entity_id <> "media_player" ->
  prefix_before "." entity_id <> "cover" ->
  (forall v a b,
      params !! "brightness" = Some v ->
      as_num v = Some a ->
      py_int (percent_to_255 a) = Ok b ->
      determine_service entity_id COMMAND_BRIGHTNESS params =
        Ok (SERVICE_TURN_ON,
            <["brightness" := VInt b]> {[ ATTR_ENTITY_ID := VStr entity_id ]}))
  /\ (forall n,
      0 <= n <= 100 ->
      params !! "brightness" = Some (VInt n) ->
      determine_service entity_id COMMAND_BRIGHTNESS params =
        Ok (SERVICE_TURN_ON,
            <["brightness" := VInt (n * 255 / 100)]>
              {[ ATTR_ENTITY_ID := VStr entity_id ]})).
Proof.
  intros Hmp Hcv. split.
  - intros v a b Hv Ha Hb.
    rewrite determine_service_generic_brightness by assumption.
    unfold dict_get. rewrite Hv.
    now rewrite (brightness_chain_num v a b Ha Hb).
  - intros n Hn Hv.
    rewrite determine_service_generic_brightness by assumption.
    unfold dict_get. rewrite Hv.
    now rewrite (brightness_chain_percent n Hn).
Qed.

(** C2.  The generic brightness branch divides [params.get('brightness')]
    by 100 without a default: when the key is missing (or holds anything
    that is not a number) the function raises [TypeError] instead of
    returning a pair. *)
Theorem C2_generic_brightness_raises entity_id params :
  prefix_before "." entity_id <> "media_player" ->
  prefix_before "." entity_id <> "cover" ->
  as_num (dict_get params "brightness") = None ->
  determine_service entity_id COMMAND_BRIGHTNESS params = Raise TypeError.
Proof.
  intros Hmp Hcv Hb.
  rewrite determine_service_generic_brightness by assumption.
  unfold brightness_chain, py_truediv. now rewrite Hb.
Qed.

(** C6.  For an entity id of the cover domain the on/off command resolves
    to [cover.SERVICE_OPEN_COVER] when [params['on']] is [True] and to
    [cover.SERVICE_CLOSE_COVER] otherwise; the arguments hold the entity
    id. *)
Theorem C6_cover_on_off entity_id params :
  COMMAND_ONOFF <> COMMAND_BRIGHTNESS ->
  prefix_before "." entity_id = "cover" ->
  (params !! "on" = Some (VBool true) ->
   determine_service entity_id COMMAND_ONOFF params =
     Ok (cover_SERVICE_OPEN_COVER, {[ ATTR_ENTITY_ID := VStr entity_id ]}))
  /\ (params !! "on" <> Some (VBool true) ->
      determine_service entity_id COMMAND_ONOFF params =
        Ok (cover_SERVICE_CLOSE_COVER, {[ ATTR_ENTITY_ID := VStr entity_id ]}))
  /\ (forall service args,
      determine_service entity_id COMMAND_ONOFF params = Ok (service, args) ->
      args !! ATTR_ENTITY_ID = Some (VStr entity_id)).
Proof.
  intros Hcmd Hcv.
  pose proof (determine_service_cover_on_off entity_id params Hcmd Hcv) as E.
  repeat split.
  - intros Hon. apply is_True_get in Hon. now rewrite E, Hon.
  - intros Hon. apply is_True_get_false in Hon. now rewrite E, Hon.
  - intros service args Hr. rewrite E in Hr. injection Hr as _ <-.
    apply lookup_singleton_eq.
Qed.

(** C7.  Outside the cover domain, the on/off command whose [on]
    parameter is not [True] (or is missing) and every command that is
    neither of the two known ones resolve to [SERVICE_TURN_OFF] with
    exactly the entity id as arguments. *)
Theorem C7_default_turn_off entity_id command params :
  COMMAND_ONOFF <> COMMAND_BRIGHTNESS ->
  prefix_before "." entity_id <> "cover" ->
  (command = COMMAND_ONOFF /\ params !! "on" <> Some (VBool true))
  \/ (command <> COMMAND_ONOFF /\ command <> COMMAND_BRIGHTNESS) ->
  determine_service entity_id command params =
    Ok (SERVICE_TURN_OFF, {[ ATTR_ENTITY_ID := VStr entity_id ]}).
Proof.
  intros Hcmd Hcv [[-> Hon]|[Hno Hnb]].
  - rewrite determine_service_on_off by assumption.
    now rewrite (is_True_get_false _ Hon), andb_false_r.
  - rewrite determine_service_on_off by assumption.
    rewrite (eqb_string_false COMMAND_ONOFF command) by congruence.
    reflexivity.
Qed.

(** C9.  The [on] parameter is compared with [is True]: any value other
    than the boolean [True], truthy or not, sends the on/off command to
    [cover.SERVICE_CLOSE_COVER] in the cover domain and to
    [SERVICE_TURN_OFF] in every other domain. *)
Theorem C9_on_is_identity entity_id params v :
  COMMAND_ONOFF <> COMMAND_BRIGHTNESS ->
  params !! "on" = Some v ->
  v <> VBool true ->
  determine_service entity_id COMMAND_ONOFF params =
    Ok (if String.eqb (prefix_before "." entity_id) "cover"
        then cover_SERVICE_CLOSE_COVER else SERVICE_TURN_OFF,
        {[ ATTR_ENTITY_ID := VStr entity_id ]}).
Proof.
  intros Hcmd Hv Hne.
  assert (Hon : params !! "on" <> Some (VBool true)) by congruence.
  destruct (String.eqb (prefix_before "." entity_id) "cover") eqn:Ed.
  - apply String.eqb_eq in Ed.
    rewrite determine_service_cover_on_off by assumption.
    now rewrite (is_True_get_false _ Hon).
  - apply String.eqb_neq in Ed.
    rewrite determine_service_on_off by assumption.
    now rewrite (is_True_get_false _ Hon), andb_false_r.
Qed.

End ResolveClaims.

(** *** Concrete runs of the command resolver *)

Lemma C1_light_kitchen_50 :
  determine_service "light.kitchen" COMMAND_BRIGHTNESS
    {[ "brightness" := VInt 50 ]} =
    Ok (SERVICE_TURN_ON,
        <["brightness" := VInt 127]> (base_args "light.kitchen"))
  /\ determine_service "light.kitchen" COMMAND_BRIGHTNESS
       {[ "brightness" := VFloat Float.half ]} =
       Ok (SERVICE_TURN_ON,
           <["brightness" := VInt 1]> (base_args "light.kitchen")).
Proof.
  split.
  - apply (proj2 (C1_generic_brightness_truncates "light.kitchen"
                    {[ "brightness" := VInt 50 ]}
                    ltac:(vm_compute; discriminate)
                    ltac:(vm_compute; discriminate)) 50).
    + lia.
    + reflexivity.
  - apply (proj1 (C1_generic_brightness_truncates "light.kitchen"
                    {[ "brightness" := VFloat Float.half ]}
                    ltac:(vm_compute; discriminate)
                    ltac:(vm_compute; discriminate))
             (VFloat Float.half) (NFloat Float.half) 1).
    + reflexivity.
    + reflexivity.
    + reflexivity.
Defined.

(** The spec's example expects 128 for a brightness of 50; the function
    returns 127. *)
Lemma C1_round_refuted :
  determine_service "light.kitchen" COMMAND_BRIGHTNESS
    {[ "brightness" := VInt 50 ]} <>
    Ok (SERVICE_TURN_ON,
        <["brightness" := VInt 128]> (base_args "light.kitchen")).
Proof.
  rewrite determine_service_generic_brightness by (vm_compute; discriminate).
  unfold dict_get. rewrite lookup_singleton_eq.
  rewrite (brightness_chain_percent 50) by lia.
  intros Heq.
  apply (f_equal (fun r : result (string * gmap string value) =>
                    match r with
                    | Ok (_, args) => args !! "brightness"
                    | Raise _ => None
                    end)) in Heq.
  cbn [mbind result_bind] in Heq.
  rewrite !lookup_insert_eq in Heq. discriminate Heq.
Qed.

Lemma C2_light_kitchen_no_brightness :
  determine_service "light.kitchen" COMMAND_BRIGHTNESS ∅ = Raise TypeError.
Proof.
  apply C2_generic_brightness_raises.
  - vm_compute; discriminate.
  - vm_compute; discriminate.
  - reflexivity.
Defined.

Lemma C6_cover_garage :
  determine_service "cover.garage" COMMAND_ONOFF {[ "on" := VBool true ]} =
    Ok (cover_SERVICE_OPEN_COVER, base_args "cover.garage")
  /\ determine_service "cover.garage" COMMAND_ONOFF {[ "on" := VBool false ]} =
       Ok (cover_SERVICE_CLOSE_COVER, base_args "cover.garage").
Proof.
  split.
  - apply (C6_cover_on_off "cover.garage" {[ "on" := VBool true ]});
      [vm_compute; discriminate | reflexivity | reflexivity].
  - apply (C6_cover_on_off "cover.garage" {[ "on" := VBool false ]});
      [vm_compute; discriminate | reflexivity | ].
    rewrite lookup_singleton_eq. discriminate.
Defined.

Lemma C7_switch_x :
  determine_service "switch.x" COMMAND_ONOFF ∅ =
    Ok (SERVICE_TURN_OFF, {[ ATTR_ENTITY_ID := VStr "switch.x" ]})
  /\ determine_service "switch.x" "action.devices.commands.Dock" ∅ =
       Ok (SERVICE_TURN_OFF, {[ ATTR_ENTITY_ID := VStr "switch.x" ]}).
Proof.
  split.
  - apply C7_default_turn_off;
      [vm_compute; discriminate | vm_compute; discriminate | left].
    split; [reflexivity | discriminate].
  - apply C7_default_turn_off;
      [vm_compute; discriminate | vm_compute; discriminate | right].
    split; vm_compute; discriminate.
Defined.

Lemma C9_one_is_not_True :
  determine_service "cover.garage" COMMAND_ONOFF {[ "on" := VInt 1 ]} =
    Ok (cover_SERVICE_CLOSE_COVER, base_args "cover.garage")
  /\ determine_service "light.kitchen" COMMAND_ONOFF {[ "on" := VStr "yes" ]} =
       Ok (SERVICE_TURN_OFF, base_args "light.kitchen").
Proof.
  split.
  - apply (C9_on_is_identity "cover.garage" {[ "on" := VInt 1 ]} (VInt 1));
      [vm_compute; discriminate | reflexivity | discriminate].
  - apply (C9_on_is_identity "light.kitchen" {[ "on" := VStr "yes" ]}
             (VStr "yes"));
      [vm_compute; discriminate | reflexivity | discriminate].
Defined.

(** ** Device discovery: lemmas *)

Section Discovery.

Context `{Imports}.

Lemma land_flag_pos (f : N) (m : Z) :
  (0 <? Z.land (Z.of_N f) m) = negb (Z.land (Z.of_N f) m =? 0).
Proof.
  assert (0 <= Z.land (Z.of_N f) m) by (apply Z.land_nonneg; lia).
  destruct (Z.eqb_spec (Z.land (Z.of_N f) m) 0) as [->|Hne]; [reflexivity|].
  apply Z.ltb_lt. lia.
Qed.

Lemma py_and_int_mask k v m :
  match v with VInt n => Some n | VBool b => Some (Z.b2z b) | _ => None end
    = Some m ->
  py_and_int k v = Ok (Z.land k m).
Proof. destruct v; intros [= <-]; reflexivity. Qed.

Lemma add_traits_mask v m items acc :
  match v with VInt n => Some n | VBool b => Some (Z.b2z b) | _ => None end
    = Some m ->
  add_traits v items acc =
    Ok (acc ++ map (fun ft : N * string => PREFIX_TRAITS +:+ ft.2)
                 (List.filter
                    (fun ft : N * string =>
                       negb (Z.land (Z.of_N ft.1) m =? 0)) items)).
Proof.
  intros Hv. revert acc.
  induction items as [|[f t] items IH]; intros acc; cbn [add_traits].
  - cbn. now rewrite app_nil_r.
  - rewrite (py_and_int_mask _ _ _ Hv). cbn [mbind result_bind].
    rewrite IH, land_flag_pos. cbn [List.filter fst].
    destruct (negb _); cbn [map snd]; [|reflexivity].
    now rewrite <- app_assoc.
Qed.

(** What [entity_to_device] returns for a supported domain when the
    feature bitmask is an [int]. *)
Lemma entity_to_device_supported e cd m :
  MAPPING_COMPONENT !! domain e = Some cd ->
  feature_mask e = Some m ->
  entity_to_device e =
    Ok (Some {| dev_id := entity_id e;
                dev_name :=
                  {| name :=
                       py_or
                         (dict_get (attributes e) ATTR_GOOGLE_ASSISTANT_NAME)
                         (dict_get (attributes e) CONF_FRIENDLY_NAME);
                     nicknames :=
                       match dict_get (attributes e) CONF_ALIASES with
                       | VList l => Some l
                       | _ => None
                       end |};
                traits :=
                  (PREFIX_TRAITS +:+ command cd) :: conditional_traits cd m;
                willReportState := false;
                type := PREFIX_TYPES +:+ schema cd |}).
Proof.
  intros Hcd Hm. unfold entity_to_device. rewrite Hcd.
  unfold conditional_traits.
  destruct (features cd) as [[|ft items]|]; try reflexivity.
  rewrite (add_traits_mask _ m).
  - reflexivity.
  - unfold feature_mask in Hm. unfold dict_get_default.
    destruct (attributes e !! ATTR_SUPPORTED_FEATURES) as [[]|];
      congruence.
Qed.

(** Without conditional features the bitmask is never read. *)
Lemma entity_to_device_plain e cd :
  MAPPING_COMPONENT !! domain e = Some cd ->
  match features cd with Some (_ :: _) => False | _ => True end ->
  exists d, entity_to_device e = Ok (Some d)
            /\ type d = PREFIX_TYPES +:+ schema cd
            /\ traits d = [PREFIX_TRAITS +:+ command cd].
Proof.
  intros Hcd Hf. unfold entity_to_device. rewrite Hcd.
  destruct (features cd) as [[|ft items]|]; [|contradiction|];
    eexists; (split; [reflexivity|split; reflexivity]).
Qed.

Lemma conditional_traits_mono cd m1 m2 t :
  bits_subset m1 m2 ->
  t ∈ conditional_traits cd m1 -> t ∈ conditional_traits cd m2.
Proof.
  intros Hsub. unfold conditional_traits.
  rewrite !list_elem_of_In, !in_map_iff.
  intros [ft [Ht Hin]]. exists ft. split; [exact Ht|].
  rewrite filter_In in *. destruct Hin as [Hin Hand]. split; [exact Hin|].
  apply negb_true_iff, Z.eqb_neq in Hand.
  apply negb_true_iff, Z.eqb_neq. intros Hz. apply Hand.
  apply Z.bits_inj'. intros i Hi. rewrite Z.bits_0, Z.land_spec.
  destruct (Z.testbit (Z.of_N ft.1) i) eqn:Ef; [|reflexivity].
  destruct (Z.testbit m1 i) eqn:E1; [|reflexivity].
  apply (f_equal (fun z => Z.testbit z i)) in Hz.
  rewrite Z.land_spec, Ef, (Hsub i Hi E1), Z.bits_0 in Hz. discriminate Hz.
Qed.

End Discovery.

Section DiscoveryClaims.

Context `{Imports}.

(** C4, for feature bitmasks that are integers.  [entity_to_device]
    returns [None] exactly when the entity's domain is not a key of
    [MAPPING_COMPONENT].  For a domain that is a key, and an entity whose
    feature bitmask is absent or an [int] (or whose entry declares no
    conditional traits), it returns a device whose type is [PREFIX_TYPES]
    plus the mapped schema and whose traits start with [PREFIX_TRAITS] plus
    the mapped base trait. *)
Theorem C4_supported_domains e :
  (entity_to_device e = Ok None <-> MAPPING_COMPONENT !! domain e = None)
  /\ (forall cd,
      MAPPING_COMPONENT !! domain e = Some cd ->
      bitmask_readable e cd ->
      exists d,
        entity_to_device e = Ok (Some d)
        /\ type d = PREFIX_TYPES +:+ schema cd
        /\ head (traits d) = Some (PREFIX_TRAITS +:+ command cd)).
Proof.
  split.
  - split.
    + unfold entity_to_device.
      destruct (MAPPING_COMPONENT !! domain e) as [cd|]; [|reflexivity].
      intros Hr. exfalso.
      destruct (match features cd with
                | Some (_ :: _ as items) => _
                | _ => _
                end) as [ts|]; discriminate Hr.
    + intros Hnone. unfold entity_to_device. now rewrite Hnone.
  - intros cd Hcd Hread. unfold bitmask_readable in Hread.
    destruct (features cd) as [[|ft items]|] eqn:Ef.
    + destruct (entity_to_device_plain e cd Hcd) as (d & Hd & Ht & Htr).
      { now rewrite Ef. }
      exists d. rewrite Htr. auto.
    + destruct Hread as [m Hm].
      eexists. split; [apply (entity_to_device_supported e cd m Hcd Hm)|].
      split; reflexivity.
    + destruct (entity_to_device_plain e cd Hcd) as (d & Hd & Ht & Htr).
      { now rewrite Ef. }
      exists d. rewrite Htr. auto.
Qed.

(** C8.  For a supported domain and two bitmasks, the first contained
    bitwise in the second, both devices are built, each holds the base
    trait followed by the conditional traits whose flag ANDed with the
    bitmask is nonzero, and every trait of the first device is a trait of
    the second.  An absent bitmask counts as 0. *)
Theorem C8_traits_monotonic e cd m1 m2 :
  MAPPING_COMPONENT !! domain e = Some cd ->
  bits_subset m1 m2 ->
  (exists d1 d2,
      entity_to_device (with_features e m1) = Ok (Some d1)
      /\ entity_to_device (with_features e m2) = Ok (Some d2)
      /\ traits d1 = (PREFIX_TRAITS +:+ command cd) :: conditional_traits cd m1
      /\ traits d2 = (PREFIX_TRAITS +:+ command cd) :: conditional_traits cd m2
      /\ forall t, t ∈ traits d1 -> t ∈ traits d2)
  /\ (attributes e !! ATTR_SUPPORTED_FEATURES = None ->
      exists d,
        entity_to_device e = Ok (Some d)
        /\ traits d
           = (PREFIX_TRAITS +:+ command cd) :: conditional_traits cd 0).
Proof.
  intros Hcd Hsub. split.
  - assert (Hmask : forall m, feature_mask (with_features e m) = Some m).
    { intros m. unfold feature_mask, with_features. cbn [attributes].
      now rewrite lookup_insert_eq. }
    do 2 eexists.
    split.
    { apply (entity_to_device_supported (with_features e m1) cd m1 Hcd).
      apply Hmask. }
    split.
    { apply (entity_to_device_supported (with_features e m2) cd m2 Hcd).
      apply Hmask. }
    cbn [traits]. split; [reflexivity|]. split; [reflexivity|].
    intros t. rewrite !elem_of_cons. intros [->|Ht]; [now left|right].
    now apply (conditional_traits_mono cd m1 m2).
  - intros Habs. eexists.
    split; [apply (entity_to_device_supported e cd 0 Hcd)|reflexivity].
    unfold feature_mask. now rewrite Habs.
Qed.

End DiscoveryClaims.

(** *** Concrete runs of the discovery *)

Lemma C4_kitchen_light :
  exists d,
    entity_to_device (kitchen_light {[ "supported_features" := VInt 17 ]})
      = Ok (Some d)
    /\ type d = "action.devices.types.LIGHT"
    /\ head (traits d) = Some "action.devices.traits.OnOff".
Proof.
  refine (proj2 (C4_supported_domains
                   (kitchen_light {[ "supported_features" := VInt 17 ]}))
            light_class_data _ _).
  - reflexivity.
  - exists 17. reflexivity.
Defined.

(** A light whose feature bitmask is [None]: the domain is supported, yet
    no device is returned. *)
Lemma C4_null_bitmask_refuted :
  MAPPING_COMPONENT !! "light" = Some light_class_data
  /\ entity_to_device (kitchen_light {[ "supported_features" := VNone ]})
     = Raise TypeError
  /\ ~ exists d,
        entity_to_device (kitchen_light {[ "supported_features" := VNone ]})
          = Ok (Some d).
Proof.
  split; [reflexivity|]. split; [reflexivity|].
  intros [d Hd]. vm_compute in Hd. discriminate Hd.
Qed.

Lemma bits_subset_1_17 : bits_subset 1 17.
Proof.
  intros [|p|p] Hi Ht; [reflexivity| |lia].
  destruct p; discriminate Ht.
Defined.

Lemma C8_kitchen_light :
  (exists d1 d2,
      entity_to_device (with_features (kitchen_light ∅) 1) = Ok (Some d1)
      /\ entity_to_device (with_features (kitchen_light ∅) 17) = Ok (Some d2)
      /\ traits d1 = (PREFIX_TRAITS +:+ command light_class_data)
                       :: conditional_traits light_class_data 1
      /\ traits d2 = (PREFIX_TRAITS +:+ command light_class_data)
                       :: conditional_traits light_class_data 17
      /\ forall t, t ∈ traits d1 -> t ∈ traits d2)
  /\ (attributes (kitchen_light ∅) !! ATTR_SUPPORTED_FEATURES = None ->
      exists d,
        entity_to_device (kitchen_light ∅) = Ok (Some d)
        /\ traits d = (PREFIX_TRAITS +:+ command light_class_data)
                        :: conditional_traits light_class_data 0).
Proof.
  apply (C8_traits_monotonic (kitchen_light ∅) light_class_data 1 17).
  - reflexivity.
  - exact bits_subset_1_17.
Defined.

(** ** Rounding of a product bounded by 255

    The volume conversion multiplies a level [x] below 1.0 by 255.0 and
    rounds twice: the product to a float, the float to an integer.  Both
    roundings are to nearest, and 255 is representable, so neither can step
    over 255.  The lemmas below follow the rounding of [SpecFloat] through
    its right shifts. *)

Section IterPos.

Context {A : Type} (f : A -> A) (P : Z -> A -> Prop).
Hypothesis step : forall k x, 0 <= k -> P k x -> P (k + 1) (f x).

(** An invariant indexed by the number of steps survives [iter_pos]. *)
Lemma iter_pos_invariant p :
  forall k x, 0 <= k -> P k x -> P (k + Zpos p) (SpecFloat.iter_pos f p x).
Proof.
  induction p as [p IH|p IH|]; intros k x Hk Hx; cbn [SpecFloat.iter_pos].
  - replace (k + Z.pos p~1) with (k + 1 + Z.pos p + Z.pos p) by lia.
    apply IH; [lia|]. apply IH; [lia|]. now apply step.
  - replace (k + Z.pos p~0) with (k + Z.pos p + Z.pos p) by lia.
    apply IH; [lia|]. now apply IH.
  - now apply step.
Qed.

End IterPos.

(** [digits2_pos p] is the number of bits of [p]. *)
Lemma digits2_pos_bounds p :
  2 ^ (Zpos (digits2_pos p) - 1) <= Zpos p < 2 ^ Zpos (digits2_pos p).
Proof.
  induction p as [p IH|p IH|]; cbn [digits2_pos].
  - rewrite Pos2Z.inj_succ.
    replace (Z.succ (Z.pos (digits2_pos p)) - 1)
      with (Z.succ (Z.pos (digits2_pos p) - 1)) by lia.
    rewrite !Z.pow_succ_r by lia. lia.
  - rewrite Pos2Z.inj_succ.
    replace (Z.succ (Z.pos (digits2_pos p)) - 1)
      with (Z.succ (Z.pos (digits2_pos p) - 1)) by lia.
    rewrite !Z.pow_succ_r by lia. lia.
  - cbn. lia.
Qed.

Lemma Zdigits2_le M b : 0 <= M -> 0 <= b -> M < 2 ^ b -> Zdigits2 M <= b.
Proof.
  intros HM Hb Hlt. destruct M as [|p|p]; cbn [Zdigits2]; [lia| |lia].
  pose proof (digits2_pos_bounds p) as [Hlo _].
  destruct (Z_le_gt_dec (Zpos (digits2_pos p)) b) as [|Hgt];
    [assumption|exfalso].
  assert (2 ^ b <= 2 ^ (Zpos (digits2_pos p) - 1))
    by (apply Z.pow_le_mono_r; lia).
  lia.
Qed.

(** One right shift halves the mantissa, moves its last bit to the round
    bit and accumulates the old round bit in the sticky bit. *)
Lemma shr_1_spec rec :
  0 <= shr_m rec ->
  shr_m (shr_1 rec) = shr_m rec / 2
  /\ shr_r (shr_1 rec) = Z.odd (shr_m rec)
  /\ shr_s (shr_1 rec) = shr_r rec || shr_s rec.
Proof.
  destruct rec as [m r s]. cbn [shr_m shr_r shr_s]. intros Hm.
  destruct m as [|[p|p|]|p]; try lia; cbn [shr_1 shr_m shr_r shr_s].
  - auto.
  - rewrite Pos2Z.inj_xI. repeat split.
    apply (Z.div_unique _ _ _ 1); lia.
  - rewrite Pos2Z.inj_xO. repeat split.
    apply (Z.div_unique _ _ _ 0); lia.
  - auto.
Qed.

Lemma shifted_step M k rec :
  0 <= M -> 0 <= k -> shifted M k rec -> shifted M (k + 1) (shr_1 rec).
Proof.
  intros HM Hk [Hm Hfl].
  assert (Hpos : 0 < 2 ^ k) by (apply Z.pow_pos_nonneg; lia).
  assert (Hm0 : 0 <= shr_m rec) by (rewrite Hm; apply Z.div_pos; lia).
  destruct (shr_1_spec rec Hm0) as (H1 & H2 & H3).
  assert (Hpow : 2 ^ (k + 1) = 2 ^ k * 2)
    by (rewrite Z.pow_add_r by lia; reflexivity).
  split.
  - rewrite H1, Hm, Hpow. now rewrite Z.div_div by lia.
  - rewrite H2, H3. intros Hor Hz.
    apply Z.mod_divide in Hz; [|lia]. destruct Hz as [c Hc].
    rewrite Hpow in Hc.
    assert (Hdiv : M / 2 ^ k = c * 2).
    { subst M. replace (c * (2 ^ k * 2)) with (c * 2 * 2 ^ k) by ring.
      apply Z.div_mul. lia. }
    apply orb_true_iff in Hor. destruct Hor as [Hodd|Hrs].
    + rewrite Hm, Hdiv in Hodd.
      rewrite Z.mul_comm, Z.odd_mul in Hodd. discriminate Hodd.
    + apply Hfl; [exact Hrs|]. subst M.
      replace (c * (2 ^ k * 2)) with (c * 2 * 2 ^ k) by ring.
      apply Z.mod_mul. lia.
Qed.

Lemma shifted_iter M p :
  0 <= M ->
  shifted M (Zpos p)
    (SpecFloat.iter_pos shr_1 p (Build_shr_record M false false)).
Proof.
  intros HM.
  apply (iter_pos_invariant shr_1 (shifted M)
           (fun k x Hk => shifted_step M k x HM Hk) p 0).
  - lia.
  - split; cbn; [now rewrite Z.div_1_r | discriminate].
Qed.

(** Rounding to nearest even moves the mantissa up by at most one, and not
    at all when nothing was shifted out. *)
Lemma round_nearest_even_bounds rec :
  let r := round_nearest_even (shr_m rec) (loc_of_shr_record rec) in
  shr_m rec <= r <= shr_m rec + 1
  /\ (shr_r rec || shr_s rec = false -> r = shr_m rec).
Proof.
  destruct rec as [m [|] [|]]; cbn; try (destruct (Z.even m));
    (split; [lia | intros; try discriminate; reflexivity]).
Qed.

Lemma fexp_le_0 x : x <= 53 -> fexp Float.prec Float.emax x <= 0.
Proof. unfold fexp, emin, Float.prec, Float.emax. lia. Qed.

(** One rounding step of [binary_round_aux]: a mantissa [M] with exponent
    [E] that stands for a number of at most 255 is shifted and rounded to a
    mantissa and an exponent that still stand for a number of at most
    255. *)
Lemma round_step M E :
  0 <= M -> E <= 0 -> M <= 255 * 2 ^ (- E) ->
  forall rec E',
    shr_fexp Float.prec Float.emax M E loc_Exact = (rec, E') ->
    E' <= 0
    /\ 0 <= shr_m rec
    /\ shr_m rec <= round_nearest_even (shr_m rec) (loc_of_shr_record rec)
    /\ round_nearest_even (shr_m rec) (loc_of_shr_record rec)
       <= 255 * 2 ^ (- E').
Proof.
  intros HM HE Hbound rec E' Hshr.
  assert (HpE : 0 < 2 ^ (- E)) by (apply Z.pow_pos_nonneg; lia).
  assert (Hdig : Zdigits2 M + E <= 53).
  { assert (Zdigits2 M <= 8 - E); [|lia].
    apply Zdigits2_le; [lia|lia|].
    replace (8 - E) with (8 + - E) by lia. rewrite Z.pow_add_r by lia.
    change (2 ^ 8) with 256. lia. }
  pose proof (fexp_le_0 _ Hdig) as Hfexp.
  pose proof (round_nearest_even_bounds rec) as [Hr Hexact].
  cbv zeta in Hr, Hexact.
  unfold shr_fexp, shr in Hshr. cbn [shr_record_of_loc] in Hshr.
  destruct (fexp Float.prec Float.emax (Zdigits2 M + E) - E)
    as [|p|p] eqn:En.
  - injection Hshr as <- <-.
    cbn [round_nearest_even shr_m loc_of_shr_record]. repeat split; lia.
  - injection Hshr as <- <-.
    pose proof (shifted_iter M p HM) as [Hm Hfl].
    set (rec := SpecFloat.iter_pos shr_1 p _) in *.
    assert (HE' : E + Z.pos p <= 0) by lia.
    assert (Hpp : 0 < 2 ^ Z.pos p) by (apply Z.pow_pos_nonneg; lia).
    assert (HpE' : 0 < 2 ^ (- (E + Z.pos p)))
      by (apply Z.pow_pos_nonneg; lia).
    assert (Hsplit : 2 ^ (- E) = 2 ^ (- (E + Z.pos p)) * 2 ^ Z.pos p).
    { rewrite <- Z.pow_add_r by lia. f_equal. lia. }
    pose proof (Z.div_mod M (2 ^ Z.pos p) ltac:(lia)) as Hdm.
    pose proof (Z.mod_pos_bound M (2 ^ Z.pos p) Hpp) as Hmod.
    rewrite <- Hm in Hdm.
    assert (Hm0 : 0 <= shr_m rec) by (rewrite Hm; apply Z.div_pos; lia).
    assert (Hm1 : shr_m rec <= 255 * 2 ^ (- (E + Z.pos p))).
    { rewrite Hm. apply Z.div_le_upper_bound; [lia|].
      rewrite Hsplit in Hbound. nia. }
    repeat split; try lia.
    destruct (shr_r rec || shr_s rec) eqn:Efl.
    + specialize (Hfl eq_refl).
      assert (shr_m rec <> 255 * 2 ^ (- (E + Z.pos p))); [|lia].
      intros Heq. rewrite Hsplit in Hbound. nia.
    + rewrite (Hexact eq_refl). exact Hm1.
  - injection Hshr as <- <-.
    cbn [round_nearest_even shr_m loc_of_shr_record]. repeat split; lia.
Qed.

(** Rounding an exact nonnegative number of at most 255 to a float gives
    zero or a positive finite float of at most 255, never an infinity. *)
Lemma binary_round_aux_bound M E :
  0 <= M -> E <= 0 -> M <= 255 * 2 ^ (- E) ->
  binary_round_aux Float.prec Float.emax false M E loc_Exact
    = S754_zero false
  \/ exists m e,
      binary_round_aux Float.prec Float.emax false M E loc_Exact
        = S754_finite false m e
      /\ e <= 0 /\ Zpos m <= 255 * 2 ^ (- e).
Proof.
  intros HM HE Hbound. unfold binary_round_aux.
  destruct (shr_fexp Float.prec Float.emax M E loc_Exact)
    as [rec1 E1] eqn:E1eq.
  destruct (round_step M E HM HE Hbound rec1 E1 E1eq)
    as (HE1 & Hm1 & Hle1 & Hb1).
  set (M2 := round_nearest_even (shr_m rec1) (loc_of_shr_record rec1)) in *.
  destruct (shr_fexp Float.prec Float.emax M2 E1 loc_Exact)
    as [rec2 E2] eqn:E2eq.
  destruct (round_step M2 E1 ltac:(lia) HE1 Hb1 rec2 E2 E2eq)
    as (HE2 & Hm2 & Hle2 & Hb2).
  destruct (shr_m rec2) as [|m|m] eqn:Em; [now left| |lia].
  right. exists m, E2.
  replace (E2 <=? Float.emax - Float.prec) with true
    by (symmetry; apply Z.leb_le; unfold Float.emax, Float.prec; lia).
  repeat split; lia.
Qed.

(** The integer nearest to a float of at most 255 is at most 255. *)
Lemma nearest_even_bound m e :
  e <= 0 -> Zpos m <= 255 * 2 ^ (- e) ->
  0 <= Float.nearest_even false m e <= 255.
Proof.
  intros He Hm. unfold Float.nearest_even. cbn [cond_Zopp].
  destruct e as [|e|k]; [|lia|].
  - change (2 ^ 0) with 1. change (2 ^ (- 0)) with 1 in Hm. lia.
  - change (- Z.neg k) with (Z.pos k) in Hm.
    assert (Hp : 0 < 2 ^ Z.pos k) by (apply Z.pow_pos_nonneg; lia).
    pose proof (Z.div_mod (Z.pos m) (2 ^ Z.pos k) ltac:(lia)) as Hdm.
    pose proof (Z.mod_pos_bound (Z.pos m) (2 ^ Z.pos k) Hp) as Hmod.
    assert (Hq0 : 0 <= Z.pos m / 2 ^ Z.pos k) by (apply Z.div_pos; lia).
    assert (Hq : Z.pos m / 2 ^ Z.pos k <= 255).
    { apply Z.div_le_upper_bound; lia. }
    set (q := Z.pos m / 2 ^ Z.pos k) in *.
    set (r := Z.pos m mod 2 ^ Z.pos k) in *.
    assert (Hup : q = 255 -> r = 0) by nia.
    destruct (Z.compare_spec (2 * r) (2 ^ Z.pos k)) as [Heq|Hlt|Hgt].
    + destruct (Z.even q); lia.
    + lia.
    + lia.
Qed.

(** A positive finite float below 1.0 has exponent below -52, or exponent
    -52 and a mantissa below [2 ^ 52]. *)
Lemma ltb_one_finite m e :
  Float.ltb (S754_finite false m e) Float.one = true ->
  e < -52 \/ (e = -52 /\ Z.pos m < 4503599627370496).
Proof.
  unfold Float.ltb, SFltb, Float.one, SFcompare.
  destruct (Z.compare_spec e (-52)) as [->|He|He].
  - destruct (Pos.compare_cont Eq m 4503599627370496) eqn:Ec;
      intros Hlt; try discriminate Hlt.
    right. split; [reflexivity|]. apply Pos2Z.pos_lt_pos. exact Ec.
  - now left.
  - intros Hlt. discriminate Hlt.
Qed.

(** The mantissa of a valid float has at most 53 bits. *)
Lemma valid_mantissa_bound s m e :
  Float.valid (S754_finite s m e) = true -> Z.pos m < 2 ^ 53.
Proof.
  unfold Float.valid, valid_binary, bounded, canonical_mantissa.
  intros Hvalid. apply andb_true_iff in Hvalid. destruct Hvalid as [Hcan _].
  apply Z.eqb_eq in Hcan. unfold fexp, emin, Float.prec, Float.emax in Hcan.
  pose proof (digits2_pos_bounds m) as [_ Hhi].
  assert (Hd : Z.pos (digits2_pos m) <= 53) by lia.
  assert (2 ^ Z.pos (digits2_pos m) <= 2 ^ 53)
    by (apply Z.pow_le_mono_r; lia).
  lia.
Qed.

Lemma below_one_mantissa s m e :
  Float.valid (S754_finite s m e) = true ->
  Float.ltb (S754_finite false m e) Float.one = true ->
  Z.pos m <= 2 ^ (- e) /\ e <= 0.
Proof.
  intros Hvalid Hlt.
  destruct (ltb_one_finite m e Hlt) as [He|[-> Hm]].
  - pose proof (valid_mantissa_bound s m e Hvalid) as Hb. clear Hvalid Hlt.
    assert (2 ^ 53 <= 2 ^ (- e)) by (apply Z.pow_le_mono_r; lia).
    lia.
  - assert (Hpow : 2 ^ (- -52) = 4503599627370496) by reflexivity.
    rewrite Hpow. clear Hvalid Hlt Hpow. lia.
Qed.

(** The float 255.0 is [8972014882652160 * 2 ^ -45]. *)
Lemma mul_255_finite m e :
  Float.mul (S754_finite false m e) (Float.of_Z 255) =
    binary_round_aux Float.prec Float.emax false
      (Z.pos (m * 8972014882652160)) (e + -45) loc_Exact.
Proof. reflexivity. Qed.

(** [round(x * 255)] for a valid float [x] with [0.0 <= x < 1.0]. *)
Lemma mul_255_below_one x :
  Float.valid x = true ->
  Float.leb Float.zero x = true ->
  Float.ltb x Float.one = true ->
  exists n, py_round (NFloat (Float.mul x (Float.of_Z 255))) = Ok n
            /\ 0 <= n <= 255.
Proof.
  intros Hvalid Hnonneg Hlt.
  destruct x as [s|s| |s m e].
  - exists 0. split; [reflexivity|lia].
  - destruct s; [discriminate Hnonneg|discriminate Hlt].
  - discriminate Hlt.
  - destruct s; [discriminate Hnonneg|].
    destruct (below_one_mantissa false m e Hvalid Hlt) as [Hm He].
    clear Hvalid Hnonneg Hlt.
    rewrite mul_255_finite.
    destruct (binary_round_aux_bound (Z.pos (m * 8972014882652160)) (e + -45))
      as [Hz|(m' & e' & Hf & He' & Hm')].
    + lia.
    + lia.
    + replace (- (e + -45)) with (- e + 45) by lia.
      rewrite Z.pow_add_r by lia. rewrite Pos2Z.inj_mul.
      assert (H45 : 2 ^ 45 = 35184372088832) by reflexivity.
      assert (H255 : Z.pos 8972014882652160 = 255 * 35184372088832)
        by reflexivity.
      rewrite H45, H255. nia.
    + rewrite Hz. exists 0. split; [reflexivity|lia].
    + rewrite Hf. exists (Float.nearest_even false m' e').
      split; [reflexivity|]. now apply nearest_even_bound.
Qed.

(** The volume conversion of a level between 0.0 and 1.0 returns an
    integer between 0 and 255. *)
Lemma volume_to_255_unit x :
  unit_float x ->
  exists n, volume_to_255 (VFloat x) = Ok n /\ 0 <= n <= 255.
Proof.
  intros (Hvalid & Hnonneg & Hle).
  unfold volume_to_255, py_min_float. cbn [as_num mbind result_bind].
  destruct (Float.ltb x Float.one) eqn:Hlt.
  - cbn [num_mul_int]. unfold float_mul_int. rewrite float_of_int_255.
    cbn [mbind result_bind].
    exact (mul_255_below_one x Hvalid Hnonneg Hlt).
  - exists 255. split; [reflexivity|lia].
Qed.

(** ** State query: lemmas *)

Lemma percent_chain_byte b :
  0 <= b <= 255 -> percent_chain (VInt b) = Ok (100 * b / 255).
Proof.
  intros Hb.
  assert (Hc : check_percent b = true).
  { revert b Hb. apply Z_range_check. vm_compute. reflexivity. }
  unfold check_percent in Hc.
  destruct (percent_chain (VInt b)) as [n|]; [|discriminate Hc].
  apply Z.eqb_eq in Hc. now subst.
Qed.

Lemma percent_byte_range b : 0 <= b <= 255 -> 0 <= 100 * b / 255 <= 100.
Proof.
  intros Hb. split.
  - apply Z.div_pos; lia.
  - apply Z.div_le_upper_bound; lia.
Qed.

Section Query.

Context `{Imports}.

Lemma query_device_plain e :
  domain e <> media_player_DOMAIN ->
  query_device e =
    (b ← percent_chain (brightness_source e);
     Ok {| on := is_on e; online := true; brightness := b |}).
Proof.
  intros Hd. unfold query_device, percent_chain, brightness_source.
  rewrite (eqb_string_false _ _ Hd). cbn [mbind result_bind].
  unfold dict_get_default. fold (is_on e).
  destruct (attributes e !! light_ATTR_BRIGHTNESS) as [[]|]; cbv beta iota;
    (destruct (py_truediv _ 255) as [q|]; [|reflexivity]);
    cbn [mbind result_bind]; now destruct (int_mul_float 100 q).
Qed.

Lemma query_device_media e :
  domain e = media_player_DOMAIN ->
  query_device e =
    (b255 ← volume_to_255 (volume_level e);
     b ← percent_chain (VInt b255);
     Ok {| on := is_on e; online := true; brightness := b |}).
Proof.
  intros Hd. unfold query_device, percent_chain, volume_to_255, volume_level.
  rewrite Hd, String.eqb_refl. unfold dict_get_default. fold (is_on e).
  destruct (py_min_float Float.one _) as [m|]; [|reflexivity].
  cbn [mbind result_bind].
  destruct (num_mul_int m 255) as [p|]; [|reflexivity].
  cbn [mbind result_bind].
  destruct (py_round p) as [n|]; [|reflexivity].
  cbn [mbind result_bind].
  destruct (py_truediv (VInt n) 255) as [q|]; [|reflexivity].
  cbn [mbind result_bind].
  now destruct (int_mul_float 100 q).
Qed.

End Query.

Lemma string_cons_neq c (s : string) : String c s <> s.
Proof.
  intros Heq. apply (f_equal String.length) in Heq. cbn in Heq. lia.
Qed.

Section QueryClaims.

Context `{Imports}.

(** C3.  For an entity whose brightness attribute, when present, is an
    [int] between 0 and 255 and whose volume level, when present, is a
    float between 0.0 and 1.0, [query_device] returns; the value it
    scales lies between 0 and 255 (the volume conversion for a media
    player, the attribute or its on/off default otherwise) and the
    reported brightness is the integer quotient [100 * b255 / 255], a
    number between 0 and 100. *)
Theorem C3_brightness_percent e :
  (forall v, attributes e !! light_ATTR_BRIGHTNESS = Some v ->
             exists b, v = VInt b /\ 0 <= b <= 255) ->
  (forall v, attributes e !! media_player_ATTR_MEDIA_VOLUME_LEVEL = Some v ->
             exists x, v = VFloat x /\ unit_float x) ->
  exists b255,
    (if String.eqb (domain e) media_player_DOMAIN
     then volume_to_255 (volume_level e) = Ok b255
     else brightness_source e = VInt b255)
    /\ 0 <= b255 <= 255
    /\ query_device e =
         Ok {| on := is_on e; online := true;
               brightness := 100 * b255 / 255 |}
    /\ 0 <= 100 * b255 / 255 <= 100.
Proof.
  intros Hbright Hvol.
  destruct (String.eqb (domain e) media_player_DOMAIN) eqn:Ed.
  - apply String.eqb_eq in Ed.
    assert (Hlevel : exists x, volume_level e = VFloat x /\ unit_float x).
    { unfold volume_level.
      destruct (attributes e !! media_player_ATTR_MEDIA_VOLUME_LEVEL)
        as [v|] eqn:Ev.
      - exact (Hvol v eq_refl).
      - destruct (is_on e); eexists; (split; [reflexivity|]);
          repeat split; reflexivity. }
    destruct Hlevel as (x & Hx & Hunit).
    destruct (volume_to_255_unit x Hunit) as (n & Hn & Hrange).
    exists n. rewrite Hx. split; [exact Hn|]. split; [exact Hrange|].
    split; [|now apply percent_byte_range].
    rewrite (query_device_media e Ed), Hx, Hn. cbn [mbind result_bind].
    now rewrite (percent_chain_byte n Hrange).
  - apply String.eqb_neq in Ed.
    assert (Hsrc : exists b, brightness_source e = VInt b /\ 0 <= b <= 255).
    { unfold brightness_source.
      destruct (attributes e !! light_ATTR_BRIGHTNESS) as [v|] eqn:Ev.
      - destruct (Hbright v eq_refl) as (b & -> & Hb). now exists b.
      - destruct (is_on e); eexists; (split; [reflexivity|lia]). }
    destruct Hsrc as (b & Hsrc & Hb).
    exists b. split; [exact Hsrc|]. split; [exact Hb|].
    split; [|now apply percent_byte_range].
    rewrite (query_device_plain e Ed), Hsrc.
    now rewrite (percent_chain_byte b Hb).
Qed.

(** C10, for an integer brightness.  For an entity that is not a media
    player whose brightness attribute is an [int] [b] between 0 and 255,
    a [bool] counting as 0 or 1, the result has brightness
    [100 * b / 255] whatever the state is, with
    [on = false] when the state is off.  The on/off default, 100 when on
    and 0 when off, is used when the attribute is missing or [None], and
    only then: every other attribute value is the one that is scaled, and
    a float [b] is scaled as [int(100 * (b / 255))] in float arithmetic.
    An off result with a positive brightness exists. *)
Theorem C10_off_keeps_brightness e :
  domain e <> media_player_DOMAIN ->
  (forall v b,
      attributes e !! light_ATTR_BRIGHTNESS = Some v ->
      as_num v = Some (NInt b) ->
      0 <= b <= 255 ->
      query_device e =
        Ok {| on := is_on e; online := true; brightness := 100 * b / 255 |}
      /\ (state e = STATE_OFF ->
          query_device e =
            Ok {| on := false; online := true;
                  brightness := 100 * b / 255 |}))
  /\ (attributes e !! light_ATTR_BRIGHTNESS = None
      \/ attributes e !! light_ATTR_BRIGHTNESS = Some VNone ->
      query_device e =
        Ok {| on := is_on e; online := true;
              brightness := if is_on e then 100 else 0 |})
  /\ (forall v,
      attributes e !! light_ATTR_BRIGHTNESS = Some v ->
      v <> VNone ->
      query_device e =
        (b ← percent_chain v;
         Ok {| on := is_on e; online := true; brightness := b |}))
  /\ (forall x,
      attributes e !! light_ATTR_BRIGHTNESS = Some (VFloat x) ->
      query_device e =
        (b ← py_int (Float.mul (Float.of_Z 100)
                       (Float.div x (Float.of_Z 255)));
         Ok {| on := is_on e; online := true; brightness := b |}))
  /\ (exists e' r,
      domain e' <> media_player_DOMAIN
      /\ state e' = STATE_OFF
      /\ query_device e' = Ok r
      /\ on r = false
      /\ 0 < brightness r).
Proof.
  intros Hd. split; [|split; [|split; [|split]]].
  - intros v b Hv Hb Hrange.
    assert (Hq : query_device e =
                 Ok {| on := is_on e; online := true;
                       brightness := 100 * b / 255 |}).
    { rewrite (query_device_plain e Hd).
      unfold brightness_source. rewrite Hv.
      assert (Hchain : percent_chain v = percent_chain (VInt b))
        by (unfold percent_chain, py_truediv; now rewrite Hb).
      destruct v; try discriminate Hb; rewrite Hchain;
        now rewrite (percent_chain_byte b Hrange). }
    split; [exact Hq|]. intros Hs. rewrite Hq.
    unfold is_on. now rewrite Hs, String.eqb_refl.
  - intros Habs. rewrite (query_device_plain e Hd).
    unfold brightness_source.
    assert (Hsrc : match attributes e !! light_ATTR_BRIGHTNESS with
                   | None | Some VNone => VInt (if is_on e then 255 else 0)
                   | Some v => v
                   end = VInt (if is_on e then 255 else 0))
      by (destruct Habs as [-> | ->]; reflexivity).
    rewrite Hsrc. now destruct (is_on e).
  - intros v Hv Hnone. rewrite (query_device_plain e Hd).
    unfold brightness_source. rewrite Hv.
    destruct v; try reflexivity. now elim Hnone.
  - intros x Hx. rewrite (query_device_plain e Hd).
    unfold brightness_source. rewrite Hx.
    unfold percent_chain, py_truediv, int_mul_float. cbn [as_num].
    rewrite float_of_int_255, float_of_int_100. reflexivity.
  - set (e' := {| entity_id := "light.x";
                  domain := String "x" media_player_DOMAIN;
                  state := STATE_OFF;
                  attributes := {[ light_ATTR_BRIGHTNESS := VInt 255 ]} |}).
    assert (Hd' : domain e' <> media_player_DOMAIN)
      by apply string_cons_neq.
    exists e', {| on := false; online := true; brightness := 100 |}.
    split; [exact Hd'|]. split; [reflexivity|].
    split; [|split; [reflexivity|cbn; lia]].
    rewrite (query_device_plain e' Hd').
    unfold brightness_source, is_on. cbn [attributes state e'].
    rewrite lookup_singleton_eq, String.eqb_refl. reflexivity.
Qed.

End QueryClaims.

(** *** Concrete runs of the state query *)

Lemma unit_float_half : unit_float Float.half.
Proof. repeat split; reflexivity. Defined.

Lemma C3_tv_and_light :
  (exists b255,
      volume_to_255
        (volume_level
           (living_room_tv "playing" {[ "volume_level" := VFloat Float.half ]}))
        = Ok b255
      /\ 0 <= b255 <= 255
      /\ query_device
           (living_room_tv "playing" {[ "volume_level" := VFloat Float.half ]})
         = Ok {| on := true; online := true;
                 brightness := 100 * b255 / 255 |}
      /\ 0 <= 100 * b255 / 255 <= 100)
  /\ (exists b255,
         brightness_source (hall_light "on" {[ "brightness" := VInt 128 ]})
           = VInt b255
         /\ 0 <= b255 <= 255
         /\ query_device (hall_light "on" {[ "brightness" := VInt 128 ]})
            = Ok {| on := true; online := true;
                    brightness := 100 * b255 / 255 |}
         /\ 0 <= 100 * b255 / 255 <= 100).
Proof.
  split.
  - refine (C3_brightness_percent
              (living_room_tv "playing"
                 {[ "volume_level" := VFloat Float.half ]})
              _ _).
    + intros v Hv. discriminate Hv.
    + intros v Hv. exists Float.half. split; [|exact unit_float_half].
      injection Hv as <-. reflexivity.
  - refine (C3_brightness_percent
              (hall_light "on" {[ "brightness" := VInt 128 ]}) _ _).
    + intros v Hv. exists 128. split; [|lia].
      injection Hv as <-. reflexivity.
    + intros v Hv. discriminate Hv.
Defined.

Lemma C10_hall_light_off :
  query_device (hall_light "off" {[ "brightness" := VInt 255 ]})
  = Ok {| on := false; online := true; brightness := 100 |}
  /\ query_device (hall_light "on" {[ "brightness" := VInt 51 ]})
     = Ok {| on := true; online := true; brightness := 20 |}.
Proof.
  split.
  - refine (proj2 (proj1 (C10_off_keeps_brightness
                            (hall_light "off" {[ "brightness" := VInt 255 ]})
                            _)
                     (VInt 255) 255 _ _ _) _).
    + discriminate.
    + reflexivity.
    + reflexivity.
    + lia.
    + reflexivity.
  - refine (proj1 (proj1 (C10_off_keeps_brightness
                            (hall_light "on" {[ "brightness" := VInt 51 ]})
                            _)
                     (VInt 51) 51 _ _ _)).
    + discriminate.
    + reflexivity.
    + reflexivity.
    + lia.
Defined.

(** C10 read with a float brightness: the attribute
    [50.99999999999999] of a light that is off is a valid float between 0
    and 255 for which [floor(100 * b / 255)] is 19, and the function
    reports 20: the float product [100 * (b / 255)] rounds to 20.0. *)
Lemma C10_float_refuted :
  Float.valid almost_51 = true
  /\ Float.leb Float.zero almost_51 = true
  /\ Float.leb almost_51 (Float.of_Z 255) = true
  /\ floor_percent_spec almost_51 = 19
  /\ query_device (hall_light "off" {[ "brightness" := VFloat almost_51 ]})
     = Ok {| on := false; online := true; brightness := 20 |}.
Proof. repeat split; reflexivity. Qed.

(** ** Further runs

    The remaining examples of the specification and the branches of
    [determine_service] no property above exercises. *)

Example query_light_off :
  query_device (hall_light "off" ∅)
  = Ok {| on := false; online := true; brightness := 0 |}.
Proof. reflexivity. Qed.

Example query_light_on_128 :
  query_device (hall_light "on" {[ "brightness" := VInt 128 ]})
  = Ok {| on := true; online := true; brightness := 50 |}.
Proof. reflexivity. Qed.

Example resolve_volume_set :
  determine_service "media_player.tv" COMMAND_BRIGHTNESS
    {[ "brightness" := VInt 50 ]}
  = Ok (media_player_SERVICE_VOLUME_SET,
        <["volume" := VFloat Float.half]> (base_args "media_player.tv")).
Proof. reflexivity. Qed.

Example resolve_volume_default :
  determine_service "media_player.tv" COMMAND_BRIGHTNESS ∅
  = Ok (media_player_SERVICE_VOLUME_SET,
        <["volume" := VFloat Float.zero]> (base_args "media_player.tv")).
Proof. reflexivity. Qed.

Example resolve_cover_position :
  determine_service "cover.garage" COMMAND_BRIGHTNESS
    {[ "brightness" := VInt 30 ]}
  = Ok (cover_SERVICE_SET_COVER_POSITION,
        <["position" := VInt 30]> (base_args "cover.garage")).
Proof. reflexivity. Qed.

Example resolve_turn_on :
  determine_service "switch.x" COMMAND_ONOFF {[ "on" := VBool true ]}
  = Ok (SERVICE_TURN_ON, base_args "switch.x").
Proof. reflexivity. Qed.

Example discover_unknown_domain :
  entity_to_device
    {| entity_id := "sensor.t"; domain := "sensor"; state := "21";
       attributes := ∅ |}
  = Ok None.
Proof. reflexivity. Qed.

Example discover_light_17 :
  match entity_to_device
          (kitchen_light {[ "supported_features" := VInt 17 ]}) with
  | Ok (Some d) => traits d
  | _ => []
  end
  = [ "action.devices.traits.OnOff";
      "action.devices.traits.Brightness";
      "action.devices.traits.ColorSpectrum" ].
Proof. reflexivity. Qed.

(** * Further properties of the three functions *)

(** ** Command resolution: the remaining branches *)

Section ResolveBranches.

Context `{Imports}.

Implicit Types (entity_id command : string) (params : gmap string value).

(** The media player branch of the brightness command. *)
Lemma determine_service_media_brightness entity_id params :
  prefix_before "." entity_id = "media_player" ->
  determine_service entity_id COMMAND_BRIGHTNESS params =
    (volume ← py_truediv (dict_get_default params "brightness" (VInt 0)) 100;
     Ok (media_player_SERVICE_VOLUME_SET,
         <["volume" := VFloat volume]> (base_args entity_id))).
Proof.
  intros Hd. unfold determine_service.
  rewrite domain_of_entity_id, Hd.
  change (String.eqb "media_player" "media_player") with true.
  now rewrite String.eqb_refl.
Qed.

(** The cover branch of the brightness command. *)
Lemma determine_service_cover_brightness entity_id params :
  prefix_before "." entity_id = "cover" ->
  determine_service entity_id COMMAND_BRIGHTNESS params =
    Ok (cover_SERVICE_SET_COVER_POSITION,
        <["position" := dict_get_default params "brightness" (VInt 0)]>
          (base_args entity_id)).
Proof.
  intros Hd. unfold determine_service.
  rewrite domain_of_entity_id, Hd.
  change (String.eqb "cover" "media_player") with false.
  change (String.eqb "cover" "cover") with true.
  now rewrite String.eqb_refl.
Qed.

Lemma volume_percent n :
  0 <= n <= 100 ->
  py_truediv (VInt n) 100 = Ok (Float.div (Float.exact n) (Float.exact 100))
  /\ unit_float (Float.div (Float.exact n) (Float.exact 100)).
Proof.
  intros Hn.
  assert (Hc : check_volume n = true).
  { revert n Hn. apply Z_range_check. vm_compute. reflexivity. }
  unfold check_volume in Hc. unfold py_truediv in *. cbn [as_num] in *.
  change (100 =? 0) with false in *. cbv iota in *.
  destruct (Float.div (Float.exact n) (Float.exact 100)) as [s|s| |s m e];
    try discriminate Hc;
    (split; [reflexivity|]);
    apply andb_true_iff in Hc; destruct Hc as [Hc H1];
    apply andb_true_iff in Hc; destruct Hc as [Hv H0];
    repeat split; assumption.
Qed.

End ResolveBranches.

(** Membership in a list given by its elements. *)
Ltac in_list :=
  rewrite !elem_of_cons; repeat first [left; reflexivity | right].

Section ResolveFurther.

Context `{Imports}.

Implicit Types (entity_id command : string) (params : gmap string value).

(** X1.  For a media player the brightness command becomes a volume: with
    no brightness parameter the volume is 0.0, and an integer percentage
    [n] between 0 and 100 gives the float nearest to [n / 100], a valid
    float between 0.0 and 1.0. *)
Theorem X1_volume_set_percent entity_id params :
  prefix_before "." entity_id = "media_player" ->
  (params !! "brightness" = None ->
   determine_service entity_id COMMAND_BRIGHTNESS params =
     Ok (media_player_SERVICE_VOLUME_SET,
         <["volume" := VFloat Float.zero]>
           {[ ATTR_ENTITY_ID := VStr entity_id ]}))
  /\ (forall n,
      0 <= n <= 100 ->
      params !! "brightness" = Some (VInt n) ->
      determine_service entity_id COMMAND_BRIGHTNESS params =
        Ok (media_player_SERVICE_VOLUME_SET,
            <["volume" := VFloat (Float.div (Float.exact n) (Float.exact 100))]>
              {[ ATTR_ENTITY_ID := VStr entity_id ]})
      /\ unit_float (Float.div (Float.exact n) (Float.exact 100))).
Proof.
  intros Hd. split.
  - intros Hb. rewrite (determine_service_media_brightness _ _ Hd).
    unfold dict_get_default. rewrite Hb. reflexivity.
  - intros n Hn Hb. rewrite (determine_service_media_brightness _ _ Hd).
    unfold dict_get_default. rewrite Hb.
    destruct (volume_percent n Hn) as [-> Hu]. split; [reflexivity|exact Hu].
Qed.

(** X2.  The media player branch does not validate the brightness: a
    parameter that is present but not a number, [None] included, raises
    [TypeError] (the default 0 only replaces a missing key), while every
    float, infinities and NaN included, is divided by 100 and returned. *)
Theorem X2_volume_set_unchecked entity_id params :
  prefix_before "." entity_id = "media_player" ->
  (forall v,
      params !! "brightness" = Some v ->
      as_num v = None ->
      determine_service entity_id COMMAND_BRIGHTNESS params = Raise TypeError)
  /\ (forall x,
      params !! "brightness" = Some (VFloat x) ->
      determine_service entity_id COMMAND_BRIGHTNESS params =
        Ok (media_player_SERVICE_VOLUME_SET,
            <["volume" := VFloat (Float.div x (Float.of_Z 100))]>
              {[ ATTR_ENTITY_ID := VStr entity_id ]})).
Proof.
  intros Hd. split.
  - intros v Hb Hv. rewrite (determine_service_media_brightness _ _ Hd).
    unfold dict_get_default, py_truediv. now rewrite Hb, Hv.
  - intros x Hb. rewrite (determine_service_media_brightness _ _ Hd).
    unfold dict_get_default, py_truediv. rewrite Hb. cbn [as_num].
    rewrite float_of_int_100. reflexivity.
Qed.

(** X3.  Whatever the input, a returned pair names one of the six known
    services; its arguments hold the entity id under [ATTR_ENTITY_ID]
    (provided that key is none of the three literal keys) and no key
    besides [ATTR_ENTITY_ID], [volume], [position] and [brightness]. *)
Theorem X3_result_shape entity_id command params service args :
  ATTR_ENTITY_ID <> "volume" ->
  ATTR_ENTITY_ID <> "position" ->
  ATTR_ENTITY_ID <> "brightness" ->
  determine_service entity_id command params = Ok (service, args) ->
  service ∈ services
  /\ args !! ATTR_ENTITY_ID = Some (VStr entity_id)
  /\ forall k, is_Some (args !! k) ->
               k ∈ [ATTR_ENTITY_ID; "volume"; "position"; "brightness"].
Proof.
  intros Hv Hp Hb. unfold determine_service, services.
  set (base := {[ ATTR_ENTITY_ID := VStr entity_id ]} : gmap string value).
  assert (Hbase : forall k, is_Some (base !! k) -> k = ATTR_ENTITY_ID).
  { intros k [x Hx]. apply lookup_singleton_Some in Hx. now destruct Hx. }
  assert (Hins : forall key v k,
             is_Some ((<[key := v]> base) !! k) ->
             k = key \/ k = ATTR_ENTITY_ID).
  { intros key v k Hk. apply lookup_insert_is_Some in Hk.
    destruct Hk as [->|[_ Hk]]; [now left|right; now apply Hbase]. }
  repeat match goal with
         | |- context [if ?c then _ else _] => destruct c
         end;
    repeat match goal with
           | |- context [mbind _ ?r] =>
               destruct r; cbn [mbind result_bind]
           end;
    intros Heq; try discriminate Heq;
    injection Heq as <- <-;
    (split; [in_list|]);
    (split;
     [ first [ apply lookup_singleton_eq
             | rewrite lookup_insert_ne by congruence;
               apply lookup_singleton_eq ]
     | intros k Hk;
       first [ apply Hbase in Hk; subst k; in_list
             | apply Hins in Hk; destruct Hk as [->| ->]; in_list ] ]).
Qed.

(** X4.  The function returns for every command other than the brightness
    command, and for every command on a cover; it raises only on the two
    brightness branches that do arithmetic. *)
Theorem X4_returns_without_arithmetic entity_id command params :
  command <> COMMAND_BRIGHTNESS \/ prefix_before "." entity_id = "cover" ->
  exists service args,
    determine_service entity_id command params = Ok (service, args).
Proof.
  intros [Hcmd|Hd].
  - destruct (determine_service_returns entity_id command params Hcmd)
      as [[service args] Hr].
    now exists service, args.
  - destruct (String.eqb command COMMAND_BRIGHTNESS) eqn:Ec.
    + apply String.eqb_eq in Ec. subst command.
      rewrite (determine_service_cover_brightness _ _ Hd).
      now do 2 eexists.
    + apply String.eqb_neq in Ec.
      destruct (determine_service_returns entity_id command params Ec)
        as [[service args] Hr].
      now exists service, args.
Qed.

(** X5.  On the generic brightness branch a float brightness that is an
    infinity raises [OverflowError] and a NaN raises [ValueError]: [int]
    refuses both. *)
Theorem X5_generic_brightness_not_finite entity_id params :
  prefix_before "." entity_id <> "media_player" ->
  prefix_before "." entity_id <> "cover" ->
  (forall s,
      params !! "brightness" = Some (VFloat (S754_infinity s)) ->
      determine_service entity_id COMMAND_BRIGHTNESS params
        = Raise OverflowError)
  /\ (params !! "brightness" = Some (VFloat S754_nan) ->
      determine_service entity_id COMMAND_BRIGHTNESS params
        = Raise ValueError).
Proof.
  intros Hmp Hcv. split.
  - intros s Hb.
    rewrite determine_service_generic_brightness by assumption.
    unfold dict_get. rewrite Hb. now destruct s.
  - intros Hb.
    rewrite determine_service_generic_brightness by assumption.
    unfold dict_get. now rewrite Hb.
Qed.

(** X6.  The service chosen, or the exception raised, depends on the
    entity id only through its domain: two entity ids with the same prefix
    before the first dot are resolved alike. *)
Theorem X6_object_id_irrelevant entity_id1 entity_id2 command params :
  prefix_before "." entity_id1 = prefix_before "." entity_id2 ->
  service_of (determine_service entity_id1 command params)
  = service_of (determine_service entity_id2 command params).
Proof.
  intros Hd. unfold determine_service.
  rewrite !domain_of_entity_id, Hd.
  repeat match goal with
         | |- context [if ?c then _ else _] => destruct c
         end;
    repeat match goal with
           | |- context [mbind _ ?r] =>
               destruct r; cbn [mbind result_bind]
           end;
    reflexivity.
Qed.

End ResolveFurther.

(** ** Device discovery: what every run does *)

Section DiscoveryRuns.

Context `{Imports}.

Lemma mapping_lookup_None d :
  MAPPING_COMPONENT !! d = None <-> d ∉ domains.
Proof.
  unfold MAPPING_COMPONENT, domains. cbn [fold_left fst snd].
  rewrite !lookup_insert_None, lookup_empty, !not_elem_of_cons.
  pose proof (not_elem_of_nil d). intuition congruence.
Qed.

(** A non-empty feature dictionary cannot be combined with a bitmask that
    is not an [int]. *)
Lemma add_traits_not_int v ft items acc :
  match v with VInt n => Some n | VBool b => Some (Z.b2z b) | _ => None end
    = None ->
  add_traits v (ft :: items) acc = Raise TypeError.
Proof.
  destruct ft as [f t].
  destruct v; intros Hv; try discriminate Hv; reflexivity.
Qed.

(** The whole of [entity_to_device] on a supported domain. *)
Lemma entity_to_device_run e cd :
  MAPPING_COMPONENT !! domain e = Some cd ->
  entity_to_device e =
    match features cd, feature_mask e with
    | Some (_ :: _), None => Raise TypeError
    | _, _ => Ok (Some (built_device e cd (effective_mask e)))
    end.
Proof.
  intros Hcd. unfold effective_mask.
  destruct (features cd) as [[|ft items]|] eqn:Ef.
  - unfold entity_to_device, built_device, conditional_traits.
    rewrite Hcd, Ef. now destruct (feature_mask e).
  - destruct (feature_mask e) as [m|] eqn:Em.
    + now rewrite (entity_to_device_supported e cd m Hcd Em).
    + unfold entity_to_device. rewrite Hcd, Ef.
      rewrite add_traits_not_int; [reflexivity|].
      unfold feature_mask in Em. unfold dict_get_default.
      destruct (attributes e !! ATTR_SUPPORTED_FEATURES) as [[]|];
        congruence.
  - unfold entity_to_device, built_device, conditional_traits.
    rewrite Hcd, Ef. now destruct (feature_mask e).
Qed.

End DiscoveryRuns.

Section DiscoveryTable.

Context `{Imports}.

(** Every value of the table is one of the six entries. *)
Lemma mapping_values d cd :
  MAPPING_COMPONENT !! d = Some cd -> cd ∈ entries.
Proof.
  unfold MAPPING_COMPONENT, entries. cbn [fold_left fst snd].
  rewrite !lookup_insert_Some, lookup_empty, !elem_of_cons.
  intuition (try discriminate; subst; auto 10).
Qed.

(** When the six domain names differ, each key has the entry written next
    to it. *)
Lemma mapping_lookup_distinct i d cd :
  NoDup domains ->
  domains !! i = Some d ->
  entries !! i = Some cd ->
  MAPPING_COMPONENT !! d = Some cd.
Proof.
  unfold domains, entries, MAPPING_COMPONENT. cbn [fold_left fst snd].
  rewrite !NoDup_cons, !not_elem_of_cons.
  intros Hnd Hd Hcd.
  do 6 (destruct i as [|i]; cbn in Hd, Hcd;
        [ injection Hd as <-; injection Hcd as <-;
          rewrite ?lookup_insert_ne by (intuition congruence);
          apply lookup_insert_eq
        | ]).
  discriminate Hd.
Qed.

Lemma string_app_inj (p a b : string) : p +:+ a = p +:+ b -> a = b.
Proof.
  induction p as [|c p IH]; cbn; [auto|].
  intros [= Heq]. auto.
Qed.

Lemma filter_sublist {A} (f : A -> bool) (l : list A) :
  sublist (List.filter f l) l.
Proof.
  induction l as [|x l IH]; cbn; [constructor|].
  destruct (f x); now constructor.
Qed.

Lemma map_sublist {A B} (f : A -> B) (l1 l2 : list A) :
  sublist l1 l2 -> sublist (map f l1) (map f l2).
Proof. induction 1; cbn; now constructor. Qed.

(** The trait names of an entry, the base trait first, are pairwise
    different whatever the values of the feature flags. *)
Lemma entry_names_NoDup cd :
  cd ∈ entries -> NoDup (command cd :: map snd (declared cd)).
Proof.
  unfold entries. rewrite !elem_of_cons. unfold declared, dict_display.
  intros [->|[->|[->|[->|[->|[->|Hnil]]]]]];
    [ | | | | | | now apply elem_of_nil in Hnil ];
    cbn [features command fold_left dict_set fst snd map];
    repeat match goal with
           | |- context [N.eqb ?a ?b] =>
               destruct (N.eqb a b); cbn [dict_set fst snd map]
           end;
    apply (bool_decide_unpack _); vm_compute; exact I.
Qed.

End DiscoveryTable.

Section DiscoveryFurther.

Context `{Imports}.

(** X7.  [entity_to_device] returns [None] exactly for the domains other
    than the six keys of [MAPPING_COMPONENT]: group, switch, fan, light,
    cover and media player. *)
Theorem X7_unsupported_domains e :
  entity_to_device e = Ok None <-> domain e ∉ domains.
Proof.
  rewrite <- mapping_lookup_None. split.
  - intros Hr.
    destruct (MAPPING_COMPONENT !! domain e) as [cd|] eqn:Hcd; [|reflexivity].
    rewrite (entity_to_device_run e cd Hcd) in Hr.
    destruct (features cd) as [[|ft items]|];
      destruct (feature_mask e); discriminate Hr.
  - intros Hnone. unfold entity_to_device. now rewrite Hnone.
Qed.

(** X8.  Every device that is returned carries the entity id as its id,
    never reports state, has the type of its domain's entry and lists the
    base trait followed by the conditional traits selected by the bitmask;
    it has at most one trait more than the entry declares. *)
Theorem X8_device_invariants e d :
  entity_to_device e = Ok (Some d) ->
  dev_id d = entity_id e
  /\ willReportState d = false
  /\ exists cd,
      MAPPING_COMPONENT !! domain e = Some cd
      /\ type d = PREFIX_TYPES +:+ schema cd
      /\ traits d
         = (PREFIX_TRAITS +:+ command cd)
             :: conditional_traits cd (effective_mask e)
      /\ (1 <= length (traits d) <= 1 + length (declared cd))%nat.
Proof.
  intros Hr.
  destruct (MAPPING_COMPONENT !! domain e) as [cd|] eqn:Hcd.
  - rewrite (entity_to_device_run e cd Hcd) in Hr.
    assert (Hd : d = built_device e cd (effective_mask e)).
    { destruct (features cd) as [[|ft items]|];
        destruct (feature_mask e); congruence. }
    subst d. split; [reflexivity|]. split; [reflexivity|].
    exists cd. repeat split.
    + cbn. lia.
    + cbn [traits built_device length]. unfold conditional_traits, declared.
      rewrite length_map.
      pose proof (List.filter_length_le
                    (fun ft : N * string =>
                       negb (Z.land (Z.of_N ft.1) (effective_mask e) =? 0))
                    (match features cd with
                     | Some items => items
                     | None => []
                     end)).
      lia.
  - unfold entity_to_device in Hr. rewrite Hcd in Hr. discriminate Hr.
Qed.

(** X9.  [entity_to_device] raises only [TypeError], and exactly when the
    domain is supported, its entry declares conditional traits and the
    feature bitmask attribute is present but not an [int]. *)
Theorem X9_raises_iff e ex :
  entity_to_device e = Raise ex <->
  ex = TypeError
  /\ exists cd,
      MAPPING_COMPONENT !! domain e = Some cd /\ ~ bitmask_readable e cd.
Proof.
  unfold bitmask_readable. split.
  - intros Hr.
    destruct (MAPPING_COMPONENT !! domain e) as [cd|] eqn:Hcd.
    + rewrite (entity_to_device_run e cd Hcd) in Hr.
      destruct (features cd) as [[|ft items]|] eqn:Ef;
        destruct (feature_mask e) eqn:Em; try discriminate Hr.
      injection Hr as <-. split; [reflexivity|].
      exists cd. rewrite Ef. split; [reflexivity|].
      intros [m Hm]. discriminate Hm.
    + unfold entity_to_device in Hr. rewrite Hcd in Hr. discriminate Hr.
  - intros [-> (cd & Hcd & Hnot)].
    rewrite (entity_to_device_run e cd Hcd).
    destruct (features cd) as [[|ft items]|];
      try (exfalso; apply Hnot; exact I).
    destruct (feature_mask e) as [m|]; [|reflexivity].
    exfalso. apply Hnot. now exists m.
Qed.

(** X10.  The name of a returned device is the assistant name when that
    attribute is truthy and the friendly name attribute ([None] when
    absent) otherwise, so an empty assistant name falls back to the
    friendly name; the nicknames are the aliases attribute when it is a
    list, taken as it is, and are left out for any other value. *)
Theorem X10_naming e d :
  entity_to_device e = Ok (Some d) ->
  (truthy (dict_get (attributes e) ATTR_GOOGLE_ASSISTANT_NAME) = true ->
   name (dev_name d) = dict_get (attributes e) ATTR_GOOGLE_ASSISTANT_NAME)
  /\ (truthy (dict_get (attributes e) ATTR_GOOGLE_ASSISTANT_NAME) = false ->
      name (dev_name d) = dict_get (attributes e) CONF_FRIENDLY_NAME)
  /\ (forall l,
      nicknames (dev_name d) = Some l <->
      attributes e !! CONF_ALIASES = Some (VList l)).
Proof.
  intros Hr.
  destruct (MAPPING_COMPONENT !! domain e) as [cd|] eqn:Hcd.
  - rewrite (entity_to_device_run e cd Hcd) in Hr.
    assert (Hd : d = built_device e cd (effective_mask e)).
    { destruct (features cd) as [[|ft items]|];
        destruct (feature_mask e); congruence. }
    subst d. cbn [dev_name built_device name nicknames]. unfold py_or.
    split; [now intros ->|]. split; [now intros ->|].
    intros l. unfold dict_get.
    destruct (attributes e !! CONF_ALIASES) as [[]|]; split; congruence.
  - unfold entity_to_device in Hr. rewrite Hcd in Hr. discriminate Hr.
Qed.

(** X11.  When the six domain names differ: a group is built as a SCENE
    with the single trait ActivateScene and a switch or a fan as a SWITCH
    with the single trait OnOff, whatever the attributes are; a light, a
    cover and a media player are all built as a LIGHT whose first trait is
    OnOff. *)
Theorem X11_types_by_domain e :
  NoDup domains ->
  (domain e = group_DOMAIN ->
   exists d, entity_to_device e = Ok (Some d)
             /\ type d = PREFIX_TYPES +:+ "SCENE"
             /\ traits d = [PREFIX_TRAITS +:+ "ActivateScene"])
  /\ (domain e = switch_DOMAIN \/ domain e = fan_DOMAIN ->
      exists d, entity_to_device e = Ok (Some d)
                /\ type d = PREFIX_TYPES +:+ "SWITCH"
                /\ traits d = [PREFIX_TRAITS +:+ "OnOff"])
  /\ (domain e = light_DOMAIN \/ domain e = cover_DOMAIN
      \/ domain e = media_player_DOMAIN ->
      forall d, entity_to_device e = Ok (Some d) ->
                type d = PREFIX_TYPES +:+ "LIGHT"
                /\ head (traits d) = Some (PREFIX_TRAITS +:+ "OnOff")).
Proof.
  intros Hnd.
  assert (Hat : forall i d cd,
             domains !! i = Some d -> entries !! i = Some cd ->
             domain e = d -> MAPPING_COMPONENT !! domain e = Some cd).
  { intros i d cd Hi Hc ->. exact (mapping_lookup_distinct i d cd Hnd Hi Hc). }
  split; [|split].
  - intros Hd.
    rewrite (entity_to_device_run e _ (Hat 0%nat _ _ eq_refl eq_refl Hd)).
    cbn [features]. eexists. split; [reflexivity|]. split; reflexivity.
  - intros [Hd|Hd].
    + rewrite (entity_to_device_run e _ (Hat 1%nat _ _ eq_refl eq_refl Hd)).
      cbn [features]. eexists. split; [reflexivity|]. split; reflexivity.
    + rewrite (entity_to_device_run e _ (Hat 2%nat _ _ eq_refl eq_refl Hd)).
      cbn [features]. eexists. split; [reflexivity|]. split; reflexivity.
  - intros Hd d Hr.
    assert (Hcd : exists cd,
               MAPPING_COMPONENT !! domain e = Some cd
               /\ schema cd = "LIGHT" /\ command cd = "OnOff").
    { destruct Hd as [Hd|[Hd|Hd]].
      - eexists. split; [exact (Hat 3%nat _ _ eq_refl eq_refl Hd)|].
        split; reflexivity.
      - eexists. split; [exact (Hat 4%nat _ _ eq_refl eq_refl Hd)|].
        split; reflexivity.
      - eexists. split; [exact (Hat 5%nat _ _ eq_refl eq_refl Hd)|].
        split; reflexivity. }
    destruct Hcd as (cd & Hcd & Hs & Hc).
    rewrite (entity_to_device_run e cd Hcd) in Hr.
    assert (Hdev : d = built_device e cd (effective_mask e)).
    { destruct (features cd) as [[|ft items]|];
        destruct (feature_mask e); congruence. }
    subst d. cbn [type traits built_device head]. now rewrite Hs, Hc.
Qed.

(** X12.  The traits of a returned device are pairwise different, whatever
    the values of the feature flags and of the bitmask. *)
Theorem X12_traits_NoDup e d :
  entity_to_device e = Ok (Some d) -> NoDup (traits d).
Proof.
  intros Hr.
  destruct (MAPPING_COMPONENT !! domain e) as [cd|] eqn:Hcd.
  - rewrite (entity_to_device_run e cd Hcd) in Hr.
    assert (Hd : d = built_device e cd (effective_mask e)).
    { destruct (features cd) as [[|ft items]|];
        destruct (feature_mask e); congruence. }
    subst d. cbn [traits built_device]. unfold conditional_traits.
    pose proof (entry_names_NoDup cd (mapping_values _ _ Hcd)) as Hnames.
    unfold declared in Hnames.
    set (items := match features cd with
                  | Some items => items
                  | None => []
                  end) in *.
    set (f := fun ft : N * string =>
                negb (Z.land (Z.of_N ft.1) (effective_mask e) =? 0)).
    assert (Hsub : sublist (command cd :: map snd (List.filter f items))
                     (command cd :: map snd items)).
    { apply sublist_skip, map_sublist, filter_sublist. }
    pose proof (sublist_NoDup _ _ Hnames Hsub) as Hnd.
    replace ((PREFIX_TRAITS +:+ command cd)
               :: map (fun ft : N * string => PREFIX_TRAITS +:+ ft.2)
                    (List.filter f items))
      with (map (String.append PREFIX_TRAITS)
              (command cd :: map snd (List.filter f items))).
    + assert (Hinj : Inj (=) (=) (String.append PREFIX_TRAITS))
        by (intros a b; apply string_app_inj).
      exact (NoDup_fmap_2 (String.append PREFIX_TRAITS) _ Hnd).
    + cbn [map]. f_equal. now rewrite map_map.
  - unfold entity_to_device in Hr. rewrite Hcd in Hr. discriminate Hr.
Qed.

(** X13.  A bitmask of 0, an absent bitmask included, selects no
    conditional trait: the device then lists the base trait alone.  For
    any bitmask, every trait besides the base trait is the name of a
    declared feature whose flag is not 0. *)
Theorem X13_traits_bounds e d :
  entity_to_device e = Ok (Some d) ->
  exists cd,
    MAPPING_COMPONENT !! domain e = Some cd
    /\ (effective_mask e = 0 -> traits d = [PREFIX_TRAITS +:+ command cd])
    /\ (forall t, t ∈ traits d ->
                  t = PREFIX_TRAITS +:+ command cd
                  \/ exists ft, ft ∈ declared cd
                                /\ ft.1 <> 0%N
                                /\ t = PREFIX_TRAITS +:+ ft.2).
Proof.
  intros Hr.
  destruct (MAPPING_COMPONENT !! domain e) as [cd|] eqn:Hcd.
  - rewrite (entity_to_device_run e cd Hcd) in Hr.
    assert (Hd : d = built_device e cd (effective_mask e)).
    { destruct (features cd) as [[|ft items]|];
        destruct (feature_mask e); congruence. }
    subst d. exists cd. split; [reflexivity|].
    cbn [traits built_device]. unfold conditional_traits, declared. split.
    + intros ->. f_equal.
      induction (match features cd with
                 | Some items => items
                 | None => []
                 end) as [|ft items IH]; [reflexivity|].
      cbn [List.filter]. now rewrite Z.land_0_r.
    + intros t. rewrite elem_of_cons. intros [->|Ht]; [now left|right].
      apply list_elem_of_In, in_map_iff in Ht.
      destruct Ht as (ft & <- & Hin). apply filter_In in Hin.
      destruct Hin as [Hin Hand]. exists ft.
      split; [now apply list_elem_of_In|]. split; [|reflexivity].
      intros Hz. rewrite Hz in Hand. discriminate Hand.
  - unfold entity_to_device in Hr. rewrite Hcd in Hr. discriminate Hr.
Qed.

End DiscoveryFurther.

(** ** State query: results, errors and round trips *)

Lemma percent_chain_quot b :
  -1172 <= b <= 1172 -> percent_chain (VInt b) = Ok (Z.quot (100 * b) 255).
Proof.
  intros Hb.
  assert (Hc : check_quot b = true).
  { revert b Hb. apply Z_range_check. vm_compute. reflexivity. }
  unfold check_quot in Hc.
  destruct (percent_chain (VInt b)) as [n|]; [|discriminate Hc].
  apply Z.eqb_eq in Hc. now subst.
Qed.

Lemma light_round_trip n :
  0 <= n <= 100 ->
  exists b r,
    brightness_chain (VInt n) = Ok b
    /\ percent_chain (VInt b) = Ok r
    /\ n - 1 <= r <= n
    /\ (r = n <-> n mod 20 = 0).
Proof.
  intros Hn.
  assert (Hc : check_light_round_trip n = true).
  { revert n Hn. apply Z_range_check. vm_compute. reflexivity. }
  unfold check_light_round_trip in Hc.
  destruct (brightness_chain (VInt n)) as [b|]; [|discriminate Hc].
  destruct (percent_chain (VInt b)) as [r|] eqn:Hr; [|discriminate Hc].
  exists b, r. split; [reflexivity|]. split; [exact Hr|].
  apply andb_true_iff in Hc. destruct Hc as [Hc Heq].
  apply andb_true_iff in Hc. destruct Hc as [Hlo Hhi].
  apply Z.leb_le in Hlo, Hhi. split; [lia|].
  apply Bool.eqb_prop in Heq.
  rewrite <- Z.eqb_eq, Heq, Z.eqb_eq. reflexivity.
Qed.

Lemma media_round_trip n :
  0 <= n <= 100 ->
  exists x b r,
    py_truediv (VInt n) 100 = Ok x
    /\ volume_to_255 (VFloat x) = Ok b
    /\ percent_chain (VInt b) = Ok r
    /\ n - 1 <= r <= n.
Proof.
  intros Hn.
  assert (Hc : check_media_round_trip n = true).
  { revert n Hn. apply Z_range_check. vm_compute. reflexivity. }
  unfold check_media_round_trip in Hc.
  destruct (py_truediv (VInt n) 100) as [x|]; [|discriminate Hc].
  destruct (volume_to_255 (VFloat x)) as [b|] eqn:Hb; [|discriminate Hc].
  destruct (percent_chain (VInt b)) as [r|] eqn:Hr; [|discriminate Hc].
  exists x, b, r.
  apply andb_true_iff in Hc. destruct Hc as [Hlo Hhi].
  apply Z.leb_le in Hlo, Hhi.
  split; [reflexivity|]. split; [exact Hb|]. split; [exact Hr|]. lia.
Qed.

(** The argument stored under [key] by a returned pair. *)
Lemma returned_arg (r : result (string * gmap string value)) service args
    (key : string) :
  r = Ok (service, args) ->
  match r with
  | Ok (_, a) => a !! key
  | Raise _ => None
  end = args !! key.
Proof. now intros ->. Qed.

Section QueryFurther.

Context `{Imports}.

(** X14.  Every result of [query_device] is online, and it is on exactly
    when the state is not the string [STATE_OFF]: any other state, such as
    an unavailable one, counts as on. *)
Theorem X14_result_invariants e r :
  query_device e = Ok r ->
  online r = true
  /\ on r = is_on e
  /\ (on r = false <-> state e = STATE_OFF).
Proof.
  intros Hr.
  assert (Hshape : exists b,
             r = {| on := is_on e; online := true; brightness := b |}).
  { destruct (String.eqb (domain e) media_player_DOMAIN) eqn:Ed.
    - apply String.eqb_eq in Ed. rewrite (query_device_media e Ed) in Hr.
      destruct (volume_to_255 (volume_level e)) as [b255|];
        [|discriminate Hr].
      cbn [mbind result_bind] in Hr.
      destruct (percent_chain (VInt b255)) as [b|]; [|discriminate Hr].
      exists b. cbn [mbind result_bind] in Hr. congruence.
    - apply String.eqb_neq in Ed. rewrite (query_device_plain e Ed) in Hr.
      destruct (percent_chain (brightness_source e)) as [b|];
        [|discriminate Hr].
      exists b. cbn [mbind result_bind] in Hr. congruence. }
  destruct Hshape as [b ->]. cbn [on online].
  split; [reflexivity|]. split; [reflexivity|].
  unfold is_on. rewrite negb_false_iff. apply String.eqb_eq.
Qed.

(** X15.  Outside the media player domain the brightness is not clamped:
    for an integer attribute [b] between -1172 and 1172 the result is
    [100 * b / 255] truncated towards zero, above 100 when [b] exceeds 257
    and negative when [b] is below -2.  At 1173 the float computation
    first falls below the exact quotient. *)
Theorem X15_brightness_not_clamped e b :
  domain e <> media_player_DOMAIN ->
  attributes e !! light_ATTR_BRIGHTNESS = Some (VInt b) ->
  (-1172 <= b <= 1172 ->
   query_device e =
     Ok {| on := is_on e; online := true;
           brightness := Z.quot (100 * b) 255 |})
  /\ (b = 1173 ->
      query_device e =
        Ok {| on := is_on e; online := true; brightness := 459 |}).
Proof.
  intros Hd Hb. rewrite (query_device_plain e Hd).
  unfold brightness_source. rewrite Hb. split.
  - intros Hrange. now rewrite (percent_chain_quot b Hrange).
  - intros ->. reflexivity.
Qed.

(** X16.  A media player whose volume level is a float that is not below
    1.0, an infinity or a NaN included, reports a brightness of exactly
    100. *)
Theorem X16_volume_saturates e x :
  domain e = media_player_DOMAIN ->
  attributes e !! media_player_ATTR_MEDIA_VOLUME_LEVEL = Some (VFloat x) ->
  Float.ltb x Float.one = false ->
  query_device e = Ok {| on := is_on e; online := true; brightness := 100 |}.
Proof.
  intros Hd Hv Hlt. rewrite (query_device_media e Hd).
  unfold volume_level. rewrite Hv.
  unfold volume_to_255, py_min_float. cbn [as_num]. rewrite Hlt.
  reflexivity.
Qed.

(** X17.  Readings that are not numbers raise [TypeError]: a volume level
    of a media player that is present but not a number, [None] included,
    and a brightness of any other entity that is a string or a list.  The
    guard against [None] protects the brightness only.  A volume level of
    minus infinity raises [OverflowError]. *)
Theorem X17_readings_not_numbers e :
  (domain e = media_player_DOMAIN ->
   forall v,
     attributes e !! media_player_ATTR_MEDIA_VOLUME_LEVEL = Some v ->
     (as_num v = None -> query_device e = Raise TypeError)
     /\ (v = VFloat (S754_infinity true) ->
         query_device e = Raise OverflowError))
  /\ (domain e <> media_player_DOMAIN ->
      forall v,
        attributes e !! light_ATTR_BRIGHTNESS = Some v ->
        v <> VNone ->
        as_num v = None ->
        query_device e = Raise TypeError).
Proof.
  split.
  - intros Hd v Hv. rewrite (query_device_media e Hd).
    unfold volume_level. rewrite Hv. split.
    + intros Hn. unfold volume_to_255, py_min_float. now rewrite Hn.
    + intros ->. reflexivity.
  - intros Hd v Hv Hnone Hn. rewrite (query_device_plain e Hd).
    unfold brightness_source. rewrite Hv.
    destruct v; try contradiction; try discriminate Hn; reflexivity.
Qed.

(** X18.  On integer brightness attributes between 0 and 255 the reported
    percentage never decreases when the attribute grows, and every
    percentage from 0 to 100 is reported for some attribute. *)
Theorem X18_percent_monotone_onto :
  (forall e1 e2 b1 b2 r1 r2,
      domain e1 <> media_player_DOMAIN ->
      domain e2 <> media_player_DOMAIN ->
      attributes e1 !! light_ATTR_BRIGHTNESS = Some (VInt b1) ->
      attributes e2 !! light_ATTR_BRIGHTNESS = Some (VInt b2) ->
      0 <= b1 -> b1 <= b2 -> b2 <= 255 ->
      query_device e1 = Ok r1 ->
      query_device e2 = Ok r2 ->
      brightness r1 <= brightness r2)
  /\ (forall n e,
      0 <= n <= 100 ->
      domain e <> media_player_DOMAIN ->
      attributes e !! light_ATTR_BRIGHTNESS
        = Some (VInt ((255 * n + 99) / 100)) ->
      query_device e =
        Ok {| on := is_on e; online := true; brightness := n |}).
Proof.
  split.
  - intros e1 e2 b1 b2 r1 r2 Hd1 Hd2 Hb1 Hb2 H0 Hle H255 Hr1 Hr2.
    rewrite (query_device_plain e1 Hd1) in Hr1.
    rewrite (query_device_plain e2 Hd2) in Hr2.
    unfold brightness_source in Hr1, Hr2. rewrite Hb1 in Hr1.
    rewrite Hb2 in Hr2.
    rewrite (percent_chain_byte b1) in Hr1 by lia.
    rewrite (percent_chain_byte b2) in Hr2 by lia.
    cbn [mbind result_bind] in Hr1, Hr2.
    injection Hr1 as <-. injection Hr2 as <-. cbn [brightness].
    apply Z.div_le_mono; lia.
  - intros n e Hn Hd Hb. rewrite (query_device_plain e Hd).
    unfold brightness_source. rewrite Hb.
    assert (Hrange : 0 <= (255 * n + 99) / 100 <= 255).
    { split; [apply Z.div_pos; lia|].
      assert ((255 * n + 99) / 100 < 256); [|lia].
      apply Z.div_lt_upper_bound; lia. }
    rewrite (percent_chain_byte _ Hrange). cbn [mbind result_bind].
    do 2 f_equal.
    assert (Hcheck : forall k, 0 <= k <= 100 ->
               (100 * ((255 * k + 99) / 100) / 255 =? k) = true).
    { apply Z_range_check. vm_compute. reflexivity. }
    apply Z.eqb_eq, Hcheck, Hn.
Qed.

End QueryFurther.

(** ** A command followed by a query *)

Section RoundTrips.

Context `{Imports}.

(** X19.  A brightness command of [n] percent, [n] an integer between 0
    and 100, followed by a state query of an entity that stored the
    resolved brightness, answers [n] or [n - 1]: the two truncations lose
    one percent except at the multiples of 20. *)
Theorem X19_brightness_round_trip entity_id params n service args v e :
  prefix_before "." entity_id <> "media_player" ->
  prefix_before "." entity_id <> "cover" ->
  0 <= n <= 100 ->
  params !! "brightness" = Some (VInt n) ->
  determine_service entity_id COMMAND_BRIGHTNESS params = Ok (service, args) ->
  args !! "brightness" = Some v ->
  domain e <> media_player_DOMAIN ->
  attributes e !! light_ATTR_BRIGHTNESS = Some v ->
  exists r,
    query_device e = Ok {| on := is_on e; online := true; brightness := r |}
    /\ n - 1 <= r <= n
    /\ (r = n <-> n mod 20 = 0).
Proof.
  intros Hmp Hcv Hn Hp Hres Harg Hd Hattr.
  destruct (light_round_trip n Hn) as (b & r & Hb & Hr & Hrange & Hiff).
  pose proof (returned_arg _ _ _ "brightness" Hres) as Hget.
  rewrite determine_service_generic_brightness in Hget by assumption.
  unfold dict_get in Hget. rewrite Hp, Hb in Hget.
  cbn [mbind result_bind] in Hget.
  rewrite lookup_insert_eq, Harg in Hget. injection Hget as <-.
  exists r. split; [|split; assumption].
  rewrite (query_device_plain e Hd).
  unfold brightness_source. rewrite Hattr. now rewrite Hr.
Qed.

(** X20.  The same for a media player: a brightness command of [n]
    percent resolves to a volume, and a state query of a media player
    whose volume level is that volume answers [n] or [n - 1]. *)
Theorem X20_volume_round_trip entity_id params n service args v e :
  prefix_before "." entity_id = "media_player" ->
  0 <= n <= 100 ->
  params !! "brightness" = Some (VInt n) ->
  determine_service entity_id COMMAND_BRIGHTNESS params = Ok (service, args) ->
  args !! "volume" = Some v ->
  domain e = media_player_DOMAIN ->
  attributes e !! media_player_ATTR_MEDIA_VOLUME_LEVEL = Some v ->
  exists r,
    query_device e = Ok {| on := is_on e; online := true; brightness := r |}
    /\ n - 1 <= r <= n.
Proof.
  intros Hmp Hn Hp Hres Harg Hd Hattr.
  destruct (media_round_trip n Hn) as (x & b & r & Hx & Hb & Hr & Hrange).
  pose proof (returned_arg _ _ _ "volume" Hres) as Hget.
  rewrite (determine_service_media_brightness _ _ Hmp) in Hget.
  unfold dict_get_default in Hget. rewrite Hp, Hx in Hget.
  cbn [mbind result_bind] in Hget.
  rewrite lookup_insert_eq, Harg in Hget. injection Hget as <-.
  exists r. split; [|assumption].
  rewrite (query_device_media e Hd).
  unfold volume_level. rewrite Hattr, Hb. cbn [mbind result_bind].
  now rewrite Hr.
Qed.

End RoundTrips.

(** ** Concrete runs for the further properties *)

Lemma X1_tv_half_volume :
  determine_service "media_player.tv" COMMAND_BRIGHTNESS
    {[ "brightness" := VInt 50 ]}
  = Ok (media_player_SERVICE_VOLUME_SET,
        <["volume" := VFloat Float.half]> (base_args "media_player.tv"))
  /\ unit_float Float.half.
Proof.
  refine (proj2 (X1_volume_set_percent "media_player.tv"
                   {[ "brightness" := VInt 50 ]} eq_refl) 50 _ _).
  - lia.
  - reflexivity.
Defined.

Lemma X2_tv_null_brightness :
  determine_service "media_player.tv" COMMAND_BRIGHTNESS
    {[ "brightness" := VNone ]}
  = Raise TypeError.
Proof.
  refine (proj1 (X2_volume_set_unchecked "media_player.tv"
                   {[ "brightness" := VNone ]} eq_refl) VNone _ _);
    reflexivity.
Defined.

Lemma X3_kitchen_turn_off :
  SERVICE_TURN_OFF ∈ services
  /\ base_args "light.kitchen" !! ATTR_ENTITY_ID = Some (VStr "light.kitchen")
  /\ forall k, is_Some (base_args "light.kitchen" !! k) ->
               k ∈ [ATTR_ENTITY_ID; "volume"; "position"; "brightness"].
Proof.
  refine (X3_result_shape "light.kitchen" COMMAND_ONOFF ∅ SERVICE_TURN_OFF
            (base_args "light.kitchen") _ _ _ _).
  - discriminate.
  - discriminate.
  - discriminate.
  - reflexivity.
Defined.

Lemma X4_cover_always_returns :
  exists service args,
    determine_service "cover.garage" COMMAND_BRIGHTNESS
      {[ "brightness" := VNone ]} = Ok (service, args).
Proof.
  refine (X4_returns_without_arithmetic "cover.garage" COMMAND_BRIGHTNESS
            {[ "brightness" := VNone ]} _).
  right. reflexivity.
Defined.

Lemma X5_kitchen_infinite_brightness :
  determine_service "light.kitchen" COMMAND_BRIGHTNESS
    {[ "brightness" := VFloat (S754_infinity false) ]}
  = Raise OverflowError.
Proof.
  refine (proj1 (X5_generic_brightness_not_finite "light.kitchen"
                   {[ "brightness" := VFloat (S754_infinity false) ]} _ _)
            false _).
  - vm_compute; discriminate.
  - vm_compute; discriminate.
  - reflexivity.
Defined.

Lemma X6_two_lights :
  service_of (determine_service "light.kitchen" COMMAND_BRIGHTNESS
                {[ "brightness" := VInt 50 ]})
  = service_of (determine_service "light.hall.lamp" COMMAND_BRIGHTNESS
                  {[ "brightness" := VInt 50 ]}).
Proof.
  exact (X6_object_id_irrelevant "light.kitchen" "light.hall.lamp"
           COMMAND_BRIGHTNESS {[ "brightness" := VInt 50 ]} eq_refl).
Defined.

Lemma kitchen_17_built : entity_to_device kitchen_17 = Ok (Some kitchen_17_device).
Proof. reflexivity. Defined.

Lemma X8_kitchen_17 :
  dev_id kitchen_17_device = "light.kitchen"
  /\ willReportState kitchen_17_device = false.
Proof.
  pose proof (X8_device_invariants kitchen_17 kitchen_17_device
                kitchen_17_built) as W.
  exact (conj (proj1 W) (proj1 (proj2 W))).
Defined.

Lemma named_switch_built :
  entity_to_device named_switch
  = Ok (Some (built_device named_switch
                {| schema := "SWITCH"; command := "OnOff"; features := None |}
                0)).
Proof. reflexivity. Defined.

Lemma X10_pump_names :
  name (dev_name (built_device named_switch
                    {| schema := "SWITCH"; command := "OnOff";
                       features := None |} 0))
  = VStr "Pump".
Proof.
  refine (proj1 (proj2 (X10_naming named_switch _ named_switch_built)) _).
  reflexivity.
Defined.

Lemma home_assistant_domains_NoDup : NoDup domains.
Proof. apply (bool_decide_unpack _). vm_compute. exact I. Defined.

Lemma X11_pump_is_switch :
  exists d,
    entity_to_device named_switch = Ok (Some d)
    /\ type d = "action.devices.types.SWITCH"
    /\ traits d = ["action.devices.traits.OnOff"].
Proof.
  refine (proj1 (proj2 (X11_types_by_domain named_switch
                          home_assistant_domains_NoDup)) _).
  left. reflexivity.
Defined.

Lemma X12_kitchen_17_traits : NoDup (traits kitchen_17_device).
Proof.
  exact (X12_traits_NoDup kitchen_17 kitchen_17_device kitchen_17_built).
Defined.

Lemma X13_pump_traits :
  exists cd,
    MAPPING_COMPONENT !! domain named_switch = Some cd
    /\ (effective_mask named_switch = 0 ->
        traits (built_device named_switch
                  {| schema := "SWITCH"; command := "OnOff";
                     features := None |} 0)
        = [PREFIX_TRAITS +:+ command cd]).
Proof.
  destruct (X13_traits_bounds named_switch _ named_switch_built)
    as (cd & Hcd & Hzero & _).
  exists cd. split; assumption.
Defined.

Lemma X14_tv_unavailable_is_on :
  online {| on := true; online := true; brightness := 100 |} = true
  /\ on {| on := true; online := true; brightness := 100 |}
     = is_on (living_room_tv "unavailable" ∅).
Proof.
  pose proof (X14_result_invariants (living_room_tv "unavailable" ∅)
                {| on := true; online := true; brightness := 100 |}
                eq_refl) as W.
  exact (conj (proj1 W) (proj1 (proj2 W))).
Defined.

Lemma X15_hall_light_510 :
  query_device (hall_light "on" {[ "brightness" := VInt 510 ]})
  = Ok {| on := true; online := true; brightness := 200 |}.
Proof.
  refine (proj1 (X15_brightness_not_clamped
                   (hall_light "on" {[ "brightness" := VInt 510 ]}) 510
                   _ eq_refl) _).
  - discriminate.
  - lia.
Defined.

Lemma X16_tv_nan_volume :
  query_device (living_room_tv "playing" {[ "volume_level" := VFloat S754_nan ]})
  = Ok {| on := true; online := true; brightness := 100 |}.
Proof.
  exact (X16_volume_saturates
           (living_room_tv "playing" {[ "volume_level" := VFloat S754_nan ]})
           S754_nan eq_refl eq_refl eq_refl).
Defined.

Lemma X17_tv_null_volume :
  query_device (living_room_tv "playing" {[ "volume_level" := VNone ]})
  = Raise TypeError.
Proof.
  refine (proj1 (proj1 (X17_readings_not_numbers
                          (living_room_tv "playing"
                             {[ "volume_level" := VNone ]}))
                   eq_refl VNone eq_refl) eq_refl).
Defined.

Lemma X18_hall_light_128 :
  query_device (hall_light "on" {[ "brightness" := VInt 128 ]})
  = Ok {| on := true; online := true; brightness := 50 |}.
Proof.
  refine (proj2 X18_percent_monotone_onto 50
            (hall_light "on" {[ "brightness" := VInt 128 ]}) _ _ eq_refl).
  - lia.
  - discriminate.
Defined.

Lemma X19_hall_50_percent :
  exists r,
    query_device (hall_light "on" {[ "brightness" := VInt 127 ]})
    = Ok {| on := true; online := true; brightness := r |}
    /\ 50 - 1 <= r <= 50
    /\ (r = 50 <-> 50 mod 20 = 0).
Proof.
  refine (X19_brightness_round_trip "light.hall"
            {[ "brightness" := VInt 50 ]} 50 SERVICE_TURN_ON
            (<["brightness" := VInt 127]> (base_args "light.hall"))
            (VInt 127)
            (hall_light "on" {[ "brightness" := VInt 127 ]})
            _ _ _ _ _ _ _ _).
  - vm_compute; discriminate.
  - vm_compute; discriminate.
  - lia.
  - reflexivity.
  - reflexivity.
  - reflexivity.
  - discriminate.
  - reflexivity.
Defined.

Lemma X20_tv_2_percent :
  exists r,
    query_device
      (living_room_tv "playing"
         {[ "volume_level" := VFloat (Float.div (Float.exact 2)
                                         (Float.exact 100)) ]})
    = Ok {| on := true; online := true; brightness := r |}
    /\ 2 - 1 <= r <= 2.
Proof.
  refine (X20_volume_round_trip "media_player.tv"
            {[ "brightness" := VInt 2 ]} 2 media_player_SERVICE_VOLUME_SET
            (<["volume" := VFloat (Float.div (Float.exact 2)
                                     (Float.exact 100))]>
               (base_args "media_player.tv"))
            (VFloat (Float.div (Float.exact 2) (Float.exact 100)))
            (living_room_tv "playing"
               {[ "volume_level" := VFloat (Float.div (Float.exact 2)
                                               (Float.exact 100)) ]})
            _ _ _ _ _ _ _).
  - reflexivity.
  - lia.
  - reflexivity.
  - reflexivity.
  - reflexivity.
  - reflexivity.
  - reflexivity.
Defined.

(** ** The volume conversion is monotone *)

Lemma rne_monotone n V1 V2 :
  0 <= n -> V1 <= V2 -> rne V1 n <= rne V2 n.
Proof.
  intros Hn Hle. unfold rne.
  assert (Hp : 0 < 2 ^ n) by (apply Z.pow_pos_nonneg; lia).
  pose proof (Z.div_mod V1 (2 ^ n) ltac:(lia)) as H1.
  pose proof (Z.div_mod V2 (2 ^ n) ltac:(lia)) as H2.
  pose proof (Z.mod_pos_bound V1 (2 ^ n) Hp) as B1.
  pose proof (Z.mod_pos_bound V2 (2 ^ n) Hp) as B2.
  assert (Hq : V1 / 2 ^ n <= V2 / 2 ^ n) by (apply Z.div_le_mono; lia).
  set (q1 := V1 / 2 ^ n) in *. set (q2 := V2 / 2 ^ n) in *.
  set (r1 := V1 mod 2 ^ n) in *. set (r2 := V2 mod 2 ^ n) in *.
  set (P := 2 ^ n) in *.
  destruct (Z.eq_dec q1 q2) as [Heq|Hne].
  - assert (r1 <= r2) by nia.
    rewrite <- Heq.
    destruct (Z.compare_spec (2 * r1) P), (Z.compare_spec (2 * r2) P);
      destruct (Z.even q1); lia.
  - assert (q1 + 1 <= q2) by lia.
    destruct (Z.compare_spec (2 * r1) P), (Z.compare_spec (2 * r2) P);
      destruct (Z.even q1), (Z.even q2); lia.
Qed.

Lemma rne_bounds n V :
  0 <= n -> V / 2 ^ n <= rne V n <= V / 2 ^ n + 1.
Proof.
  intros Hn. unfold rne.
  destruct (2 * (V mod 2 ^ n) ?= 2 ^ n); try destruct (Z.even _); lia.
Qed.

Lemma rne_exact n V : 0 <= n -> V mod 2 ^ n = 0 -> rne V n = V / 2 ^ n.
Proof.
  intros Hn Hz. unfold rne. rewrite Hz.
  assert (Hp : 0 < 2 ^ n) by (apply Z.pow_pos_nonneg; lia).
  destruct (Z.compare_spec (2 * 0) (2 ^ n)); lia.
Qed.

(** Scaling the number and the unit alike leaves the rounding unchanged. *)
Lemma rne_scale n j V :
  0 <= n -> 0 <= j -> rne (V * 2 ^ j) (n + j) = rne V n.
Proof.
  intros Hn Hj. unfold rne.
  assert (Hpn : 0 < 2 ^ n) by (apply Z.pow_pos_nonneg; lia).
  assert (Hpj : 0 < 2 ^ j) by (apply Z.pow_pos_nonneg; lia).
  rewrite Z.pow_add_r by lia.
  rewrite Z.div_mul_cancel_r by lia.
  rewrite Z.mul_mod_distr_r by lia.
  replace (2 * (V mod 2 ^ n * 2 ^ j)) with (2 * (V mod 2 ^ n) * 2 ^ j) by ring.
  rewrite <- (Zmult_compare_compat_r (2 * (V mod 2 ^ n)) (2 ^ n) (2 ^ j))
    by lia.
  reflexivity.
Qed.

(** The low [k] bits of [M]: the bit of weight [2 ^ (k - 1)] and the bits
    below it. *)
Lemma mod_pow2_split M k :
  0 < k ->
  M mod 2 ^ k
  = M mod 2 ^ (k - 1)
    + 2 ^ (k - 1) * (if Z.odd (M / 2 ^ (k - 1)) then 1 else 0).
Proof.
  intros Hk.
  assert (Hp : 0 < 2 ^ (k - 1)) by (apply Z.pow_pos_nonneg; lia).
  replace (2 ^ k) with (2 ^ (k - 1) * 2).
  - rewrite Z.rem_mul_r by lia. now rewrite Zmod_odd.
  - rewrite Z.mul_comm, <- (Z.pow_succ_r 2 (k - 1)) by lia. f_equal. lia.
Qed.

Lemma shifted_exactly_step M k rec :
  0 <= M -> 0 <= k ->
  shifted_exactly M k rec -> shifted_exactly M (k + 1) (shr_1 rec).
Proof.
  intros HM Hk (Hm & H0 & Hpos).
  assert (Hp : 0 < 2 ^ k) by (apply Z.pow_pos_nonneg; lia).
  assert (Hm0 : 0 <= shr_m rec) by (rewrite Hm; apply Z.div_pos; lia).
  destruct (shr_1_spec rec Hm0) as (H1 & H2 & H3).
  assert (Hpow : 2 ^ (k + 1) = 2 ^ k * 2)
    by (rewrite Z.pow_add_r by lia; reflexivity).
  split; [|split].
  - rewrite H1, Hm, Hpow. now rewrite Z.div_div by lia.
  - intros Hk1. lia.
  - intros _. replace (k + 1 - 1) with k by lia. split.
    + now rewrite H2, Hm.
    + rewrite H3.
      destruct (Z.eq_dec k 0) as [->|Hk0].
      * destruct (H0 eq_refl) as [-> ->]. now rewrite Z.mod_1_r.
      * destruct (Hpos ltac:(lia)) as [-> ->].
        rewrite (mod_pow2_split M k) by lia.
        assert (Hq : 0 < 2 ^ (k - 1)) by (apply Z.pow_pos_nonneg; lia).
        pose proof (Z.mod_pos_bound M (2 ^ (k - 1)) Hq) as Hb.
        destruct (Z.odd (M / 2 ^ (k - 1)));
          destruct (Z.eqb_spec (M mod 2 ^ (k - 1)) 0) as [Hz|Hz];
          cbn [orb negb]; symmetry;
          first [ apply negb_true_iff, Z.eqb_neq; lia
                | apply negb_false_iff, Z.eqb_eq; lia ].
Qed.

Lemma shifted_exactly_iter M p :
  0 <= M ->
  shifted_exactly M (Zpos p)
    (SpecFloat.iter_pos shr_1 p (Build_shr_record M false false)).
Proof.
  intros HM.
  apply (iter_pos_invariant shr_1 (shifted_exactly M)
           (fun k x Hk => shifted_exactly_step M k x HM Hk) p 0).
  - lia.
  - split; [cbn; now rewrite Z.div_1_r|]. split; [now intros _|lia].
Qed.

(** Rounding the shifted record is rounding the quotient. *)
Lemma round_shifted M k rec :
  0 <= M -> 0 < k -> shifted_exactly M k rec ->
  round_nearest_even (shr_m rec) (loc_of_shr_record rec) = rne M k.
Proof.
  intros HM Hk (Hm & _ & Hpos). destruct (Hpos Hk) as [Hr Hs].
  destruct rec as [m r s]. cbn [shr_m shr_r shr_s] in *.
  unfold rne. rewrite (mod_pow2_split M k Hk), <- Hr, <- Hm.
  assert (Hq : 0 < 2 ^ (k - 1)) by (apply Z.pow_pos_nonneg; lia).
  assert (Hpow : 2 ^ k = 2 * 2 ^ (k - 1)).
  { rewrite <- (Z.pow_succ_r 2 (k - 1)) by lia. f_equal. lia. }
  pose proof (Z.mod_pos_bound M (2 ^ (k - 1)) Hq) as Hb.
  rewrite Hpow.
  destruct r, s; cbn [loc_of_shr_record round_nearest_even];
    symmetry in Hs;
    first [ apply negb_true_iff, Z.eqb_neq in Hs
          | apply negb_false_iff, Z.eqb_eq in Hs ];
    match goal with
    | |- context [?a ?= ?b] => destruct (Z.compare_spec a b)
    end; try lia; reflexivity.
Qed.

(** ** The number of bits of a positive integer *)

Lemma Zdigits2_bounds V :
  0 < V -> 0 < Zdigits2 V /\ 2 ^ (Zdigits2 V - 1) <= V < 2 ^ Zdigits2 V.
Proof.
  intros HV. destruct V as [|p|p]; try lia. cbn [Zdigits2].
  split; [lia|apply digits2_pos_bounds].
Qed.

Lemma Zdigits2_unique V d :
  0 < d -> 2 ^ (d - 1) <= V < 2 ^ d -> Zdigits2 V = d.
Proof.
  intros Hd [Hlo Hhi].
  assert (HV : 0 < V).
  { assert (0 < 2 ^ (d - 1)) by (apply Z.pow_pos_nonneg; lia). lia. }
  destruct (Zdigits2_bounds V HV) as (Hd' & Hlo' & Hhi').
  destruct (Z.lt_trichotomy (Zdigits2 V) d) as [Hlt|[Heq|Hgt]];
    [exfalso|assumption|exfalso].
  - assert (2 ^ Zdigits2 V <= 2 ^ (d - 1))
      by (apply Z.pow_le_mono_r; lia).
    lia.
  - assert (2 ^ d <= 2 ^ (Zdigits2 V - 1))
      by (apply Z.pow_le_mono_r; lia).
    lia.
Qed.

Lemma Zdigits2_scale V j :
  0 < V -> 0 <= j -> Zdigits2 (V * 2 ^ j) = Zdigits2 V + j.
Proof.
  intros HV Hj. destruct (Zdigits2_bounds V HV) as (Hd & Hlo & Hhi).
  assert (Hp : 0 < 2 ^ j) by (apply Z.pow_pos_nonneg; lia).
  apply Zdigits2_unique; [lia|].
  replace (Zdigits2 V + j - 1) with (Zdigits2 V - 1 + j) by lia.
  rewrite !Z.pow_add_r by lia. nia.
Qed.

Lemma Zdigits2_monotone V1 V2 :
  0 <= V1 -> V1 <= V2 -> Zdigits2 V1 <= Zdigits2 V2.
Proof.
  intros H1 Hle.
  destruct (Z.eq_dec V2 0) as [->|Hne].
  - replace V1 with 0 by lia. lia.
  - destruct (Zdigits2_bounds V2 ltac:(lia)) as (Hd & _ & Hhi).
    apply Zdigits2_le; lia.
Qed.

(** The grid of the floats next to a scaled exact value. *)
Lemma grid_shift_scaled M E :
  0 < M -> -1119 <= E ->
  grid_shift (M * 2 ^ (E + 1119))
  = fexp Float.prec Float.emax (Zdigits2 M + E) + 1119.
Proof.
  intros HM HE. unfold grid_shift.
  rewrite Zdigits2_scale by lia.
  unfold fexp, emin, Float.prec, Float.emax. lia.
Qed.

(** A multiple of the grid step is left as it is. *)
Lemma rne_multiple c g : 0 <= g -> rne (c * 2 ^ g) g = c.
Proof.
  intros Hg.
  assert (Hp : 0 < 2 ^ g) by (apply Z.pow_pos_nonneg; lia).
  rewrite rne_exact by (try apply Z.mod_mul; lia).
  apply Z.div_mul. lia.
Qed.

(** The first step of [binary_round_aux], exactly: the mantissa is shifted
    to the grid of the neighbouring floats and rounded there. *)
Lemma round_step_exact M E rec E' :
  0 < M -> -1119 <= E ->
  shr_fexp Float.prec Float.emax M E loc_Exact = (rec, E') ->
  round_nearest_even (shr_m rec) (loc_of_shr_record rec) * 2 ^ (E' + 1119)
    = round53 (M * 2 ^ (E + 1119))
  /\ -1074 <= E'
  /\ 0 <= round_nearest_even (shr_m rec) (loc_of_shr_record rec) <= 2 ^ 53.
Proof.
  intros HM HE Hshr. unfold round53.
  rewrite (grid_shift_scaled M E HM HE).
  destruct (Zdigits2_bounds M HM) as (Hd & Hlo & Hhi).
  unfold shr_fexp, shr in Hshr. cbn [shr_record_of_loc] in Hshr.
  set (d := Zdigits2 M) in *.
  assert (Hf : fexp Float.prec Float.emax (d + E)
               = Z.max (d + E - 53) (-1074)) by reflexivity.
  destruct (fexp Float.prec Float.emax (d + E) - E) as [|p|p] eqn:En.
  - injection Hshr as <- <-.
    cbn [round_nearest_even shr_m loc_of_shr_record].
    replace (fexp Float.prec Float.emax (d + E) + 1119) with (E + 1119)
      by lia.
    rewrite rne_multiple by lia.
    assert (2 ^ d <= 2 ^ 53) by (apply Z.pow_le_mono_r; lia).
    repeat split; lia.
  - injection Hshr as <- <-.
    pose proof (shifted_exactly_iter M p ltac:(lia)) as Hinv.
    rewrite (round_shifted M (Z.pos p) _ ltac:(lia) ltac:(lia) Hinv).
    replace (fexp Float.prec Float.emax (d + E) + 1119)
      with (Z.pos p + (E + 1119)) by lia.
    rewrite rne_scale by lia.
    replace (E + Z.pos p + 1119) with (Z.pos p + (E + 1119)) by lia.
    split; [reflexivity|]. split; [lia|].
    pose proof (rne_bounds (Z.pos p) M ltac:(lia)) as Hb.
    assert (Hpp : 0 < 2 ^ Z.pos p) by (apply Z.pow_pos_nonneg; lia).
    assert (Hq0 : 0 <= M / 2 ^ Z.pos p) by (apply Z.div_pos; lia).
    assert (Hq : M / 2 ^ Z.pos p < 2 ^ 53).
    { apply Z.div_lt_upper_bound; [lia|].
      rewrite <- Z.pow_add_r by lia.
      assert (2 ^ d <= 2 ^ (Z.pos p + 53))
        by (apply Z.pow_le_mono_r; lia).
      lia. }
    lia.
  - injection Hshr as <- <-.
    cbn [round_nearest_even shr_m loc_of_shr_record].
    set (g := fexp Float.prec Float.emax (d + E) + 1119).
    assert (Hg : 0 <= g <= E + 1119) by lia.
    replace (M * 2 ^ (E + 1119)) with (M * 2 ^ (E + 1119 - g) * 2 ^ g).
    + rewrite rne_multiple by lia.
      assert (2 ^ d <= 2 ^ 53) by (apply Z.pow_le_mono_r; lia).
      repeat split; lia.
    + rewrite <- Z.mul_assoc, <- Z.pow_add_r by lia. do 2 f_equal. lia.
Qed.

(** The second step of [binary_round_aux] changes the representation of
    the rounded mantissa, not its value. *)
Lemma renormalise M2 E1 rec E2 :
  0 <= M2 <= 2 ^ 53 -> -1074 <= E1 ->
  shr_fexp Float.prec Float.emax M2 E1 loc_Exact = (rec, E2) ->
  0 <= shr_m rec
  /\ shr_m rec * 2 ^ (E2 + 1119) = M2 * 2 ^ (E1 + 1119)
  /\ E1 <= E2.
Proof.
  intros HM HE Hshr.
  unfold shr_fexp, shr in Hshr. cbn [shr_record_of_loc] in Hshr.
  destruct (Z.eq_dec M2 (2 ^ 53)) as [->|Hne].
  - change (Zdigits2 (2 ^ 53)) with 54 in Hshr.
    replace (fexp Float.prec Float.emax (54 + E1) - E1) with 1 in Hshr
      by (unfold fexp, emin, Float.prec, Float.emax; lia).
    assert (Hrec : SpecFloat.iter_pos shr_1 1
                     {| shr_m := 2 ^ 53; shr_r := false; shr_s := false |}
                   = {| shr_m := 2 ^ 52; shr_r := false; shr_s := false |})
      by reflexivity.
    rewrite Hrec in Hshr. injection Hshr as <- <-. cbn [shr_m].
    replace (E1 + 1 + 1119) with (Z.succ (E1 + 1119)) by lia.
    rewrite Z.pow_succ_r by lia.
    split; [lia|]. split; [|lia].
    change (2 ^ 53) with (2 ^ 52 * 2). ring.
  - assert (Hd : Zdigits2 M2 <= 53) by (apply Zdigits2_le; lia).
    assert (Hn : fexp Float.prec Float.emax (Zdigits2 M2 + E1) - E1 <= 0)
      by (unfold fexp, emin, Float.prec, Float.emax; lia).
    destruct (fexp Float.prec Float.emax (Zdigits2 M2 + E1) - E1)
      as [|p|p]; [|lia|];
      injection Hshr as <- <-; cbn [shr_m]; repeat split; lia.
Qed.

(** Rounding an exact product of at most 255 to a float: the value of the
    result is the value of the product rounded to the grid of the
    neighbouring floats. *)
Lemma round_aux_scaled M E :
  0 < M -> -1119 <= E -> E <= 0 -> M <= 255 * 2 ^ (- E) ->
  scaled (binary_round_aux Float.prec Float.emax false M E loc_Exact)
    = round53 (M * 2 ^ (E + 1119))
  /\ (binary_round_aux Float.prec Float.emax false M E loc_Exact
        = S754_zero false
      \/ exists m e,
          binary_round_aux Float.prec Float.emax false M E loc_Exact
            = S754_finite false m e
          /\ -1074 <= e).
Proof.
  intros HM HE HE0 Hbound. unfold binary_round_aux.
  destruct (shr_fexp Float.prec Float.emax M E loc_Exact)
    as [rec1 E1] eqn:E1eq.
  destruct (round_step M E ltac:(lia) HE0 Hbound rec1 E1 E1eq)
    as (HE1 & Hm1 & Hle1 & Hb1).
  destruct (round_step_exact M E rec1 E1 HM HE E1eq) as (Hv1 & HE1' & Hr1).
  set (M2 := round_nearest_even (shr_m rec1) (loc_of_shr_record rec1)) in *.
  destruct (shr_fexp Float.prec Float.emax M2 E1 loc_Exact)
    as [rec2 E2] eqn:E2eq.
  destruct (round_step M2 E1 ltac:(lia) HE1 Hb1 rec2 E2 E2eq)
    as (HE2 & Hm2 & Hle2 & Hb2).
  destruct (renormalise M2 E1 rec2 E2 Hr1 HE1' E2eq) as (_ & Hv2 & HE2').
  rewrite <- Hv1, <- Hv2.
  destruct (shr_m rec2) as [|m|m] eqn:Em; [split; [reflexivity|now left]| |lia].
  replace (E2 <=? Float.emax - Float.prec) with true
    by (symmetry; apply Z.leb_le; unfold Float.emax, Float.prec; lia).
  split; [reflexivity|]. right. exists m, E2. split; [reflexivity|lia].
Qed.

(** Rounding to the nearest float never reverses the order of two exact
    values. *)
Lemma round53_monotone V1 V2 :
  0 < V1 -> V1 <= V2 -> round53 V1 <= round53 V2.
Proof.
  intros H1 Hle. unfold round53, grid_shift.
  destruct (Zdigits2_bounds V1 H1) as (Hd1 & Hlo1 & Hhi1).
  destruct (Zdigits2_bounds V2 ltac:(lia)) as (Hd2 & Hlo2 & Hhi2).
  pose proof (Zdigits2_monotone V1 V2 ltac:(lia) Hle) as Hd.
  set (d1 := Zdigits2 V1) in *. set (d2 := Zdigits2 V2) in *.
  set (g1 := Z.max (d1 - 53) 45). set (g2 := Z.max (d2 - 53) 45).
  assert (Hp1 : 0 < 2 ^ g1) by (apply Z.pow_pos_nonneg; lia).
  assert (Hp2 : 0 < 2 ^ g2) by (apply Z.pow_pos_nonneg; lia).
  destruct (Z.eq_dec g1 g2) as [Heq|Hne].
  - rewrite <- Heq.
    pose proof (rne_monotone g1 V1 V2 ltac:(lia) Hle). nia.
  - assert (Hg2 : g2 = d2 - 53) by lia.
    assert (Hlt : d1 < d2) by lia.
    assert (Hmid : 2 ^ d1 <= 2 ^ (d2 - 1)) by (apply Z.pow_le_mono_r; lia).
    assert (Hs1 : 2 ^ (d2 - 1) = 2 ^ (d2 - 1 - g1) * 2 ^ g1).
    { rewrite <- Z.pow_add_r by lia. f_equal. lia. }
    assert (Hs2 : 2 ^ (d2 - 1) = 2 ^ 52 * 2 ^ g2).
    { rewrite <- Z.pow_add_r by lia. f_equal. lia. }
    assert (Hr1 : rne V1 g1 <= 2 ^ (d2 - 1 - g1)).
    { rewrite <- (rne_multiple (2 ^ (d2 - 1 - g1)) g1) by lia.
      apply rne_monotone; lia. }
    assert (Hr2 : 2 ^ 52 <= rne V2 g2).
    { rewrite <- (rne_multiple (2 ^ 52) g2) at 1 by lia.
      apply rne_monotone; lia. }
    apply Z.le_trans with (2 ^ (d2 - 1)).
    + rewrite Hs1. apply Z.mul_le_mono_nonneg_r; lia.
    + rewrite Hs2. apply Z.mul_le_mono_nonneg_r; lia.
Qed.

Lemma round53_zero : round53 0 = 0.
Proof.
  unfold round53, grid_shift. change (Zdigits2 0) with 0.
  change (Z.max (0 - 53) 45) with 45.
  rewrite <- (rne_multiple 0 45) at 2 by lia. reflexivity.
Qed.

Lemma round53_nonneg V : 0 <= V -> 0 <= round53 V.
Proof.
  intros HV. unfold round53.
  assert (Hg : 0 <= grid_shift V) by (unfold grid_shift; lia).
  assert (Hp : 0 < 2 ^ grid_shift V) by (apply Z.pow_pos_nonneg; lia).
  pose proof (rne_bounds (grid_shift V) V Hg) as Hb.
  assert (0 <= V / 2 ^ grid_shift V) by (apply Z.div_pos; lia).
  nia.
Qed.

(** ** The order of floats and the order of their values *)

(** A valid finite float has a canonical mantissa. *)
Lemma valid_canonical s m e :
  Float.valid (S754_finite s m e) = true ->
  -1074 <= e /\ Z.pos m < 2 ^ 53 /\ (-1074 < e -> 2 ^ 52 <= Z.pos m).
Proof.
  intros Hvalid.
  pose proof (valid_mantissa_bound s m e Hvalid) as Hb.
  unfold Float.valid, valid_binary, bounded, canonical_mantissa in Hvalid.
  apply andb_true_iff in Hvalid. destruct Hvalid as [Hcan _].
  apply Z.eqb_eq in Hcan. unfold fexp, emin, Float.prec, Float.emax in Hcan.
  pose proof (digits2_pos_bounds m) as [Hlo _].
  split; [lia|]. split; [exact Hb|]. intros He.
  assert (Hd : Z.pos (digits2_pos m) = 53) by lia.
  rewrite Hd in Hlo. exact Hlo.
Qed.

Lemma leb_finite m1 e1 m2 e2 :
  Float.leb (S754_finite false m1 e1) (S754_finite false m2 e2) = true ->
  e1 < e2 \/ (e1 = e2 /\ Z.pos m1 <= Z.pos m2).
Proof.
  unfold Float.leb, SFleb, SFcompare.
  destruct (Z.compare_spec e1 e2) as [->|He|He].
  - change (Pos.compare_cont Eq m1 m2) with (m1 ?= m2)%positive.
    destruct (Pos.compare_spec m1 m2) as [->|Hm|Hm];
      intros Hle; try discriminate Hle; right; split; try reflexivity.
    apply Z.lt_le_incl, Pos2Z.pos_lt_pos. exact Hm.
  - now left.
  - intros Hle. discriminate Hle.
Qed.

Lemma leb_scaled m1 e1 m2 e2 :
  Float.valid (S754_finite false m1 e1) = true ->
  Float.valid (S754_finite false m2 e2) = true ->
  Float.leb (S754_finite false m1 e1) (S754_finite false m2 e2) = true ->
  scaled (S754_finite false m1 e1) <= scaled (S754_finite false m2 e2).
Proof.
  intros Hv1 Hv2 Hle. cbn [scaled].
  destruct (valid_canonical _ _ _ Hv1) as (He1 & Hm1 & _).
  destruct (valid_canonical _ _ _ Hv2) as (He2 & _ & Hm2).
  destruct (leb_finite _ _ _ _ Hle) as [Hlt|[-> Hm]].
  - clear Hv1 Hv2 Hle. specialize (Hm2 ltac:(lia)).
    assert (Hp : 0 < 2 ^ (e1 + 1119)) by (apply Z.pow_pos_nonneg; lia).
    assert (Hstep : 2 * 2 ^ (e1 + 1119) <= 2 ^ (e2 + 1119)).
    { rewrite <- Z.pow_succ_r by lia. apply Z.pow_le_mono_r; lia. }
    change (2 ^ 53) with (2 * 2 ^ 52) in Hm1.
    assert (A : Z.pos m1 * 2 ^ (e1 + 1119) <= 2 ^ 52 * (2 * 2 ^ (e1 + 1119)))
      by nia.
    assert (B : 2 ^ 52 * (2 * 2 ^ (e1 + 1119)) <= 2 ^ 52 * 2 ^ (e2 + 1119))
      by (apply Z.mul_le_mono_nonneg_l; lia).
    assert (C : 2 ^ 52 * 2 ^ (e2 + 1119) <= Z.pos m2 * 2 ^ (e2 + 1119))
      by (apply Z.mul_le_mono_nonneg_r; lia).
    lia.
  - clear Hv1 Hv2 Hle.
    apply Z.mul_le_mono_nonneg_r; [apply Z.pow_nonneg|]; lia.
Qed.

(** A positive finite float that is not below 1.0 has exponent above -52,
    or exponent -52 and a mantissa of at least [2 ^ 52]. *)
Lemma not_ltb_one_finite m e :
  Float.ltb (S754_finite false m e) Float.one = false ->
  -52 < e \/ (e = -52 /\ 4503599627370496 <= Z.pos m).
Proof.
  unfold Float.ltb, SFltb, Float.one, SFcompare.
  destruct (Z.compare_spec e (-52)) as [->|He|He].
  - destruct (Pos.compare_cont Eq m 4503599627370496) eqn:Ec;
      intros Hx; try discriminate Hx; right; split; try reflexivity.
    + apply Pos.compare_eq in Ec. rewrite Ec. apply Z.le_refl.
    + apply Z.lt_le_incl, Pos2Z.pos_lt_pos, Pos.compare_gt_iff. exact Ec.
  - intros Hx. discriminate Hx.
  - intros _. now left.
Qed.

(** A level that is not below 1.0 has no level below 1.0 above it. *)
Lemma not_below_one_above x y :
  Float.leb Float.zero x = true ->
  Float.leb x y = true ->
  Float.ltb x Float.one = false ->
  Float.ltb y Float.one = false.
Proof.
  intros H0 Hle Hx.
  destruct x as [sx|[|]| |[|] m1 e1].
  - discriminate Hx.
  - discriminate H0.
  - destruct y as [sy|[|]| |sy m2 e2]; try discriminate Hle. reflexivity.
  - discriminate H0.
  - discriminate H0.
  - destruct y as [sy|[|]| |[|] m2 e2].
    + discriminate Hle.
    + discriminate Hle.
    + reflexivity.
    + reflexivity.
    + discriminate Hle.
    + destruct (Float.ltb (S754_finite false m2 e2) Float.one) eqn:Hy;
        [exfalso|reflexivity].
      apply leb_finite in Hle. apply ltb_one_finite in Hy.
      apply not_ltb_one_finite in Hx. lia.
Qed.

(** ** The volume conversion as a function of the exact value *)

Lemma rne_zero n : 0 <= n -> rne 0 n = 0.
Proof. intros Hn. exact (rne_multiple 0 n Hn). Qed.

(** [round] of a nonnegative finite float rounds its value. *)
Lemma nearest_even_scaled m e :
  -1119 <= e ->
  Float.nearest_even false m e = rne (scaled (S754_finite false m e)) 1119.
Proof.
  intros He. unfold Float.nearest_even. cbn [cond_Zopp scaled].
  destruct e as [|p|k].
  - change (0 + 1119) with 1119. rewrite rne_multiple by lia.
    change (2 ^ 0) with 1. lia.
  - rewrite Z.pow_add_r, Z.mul_assoc by lia. now rewrite rne_multiple by lia.
  - change (rne (Z.pos m) (Z.pos k)
            = rne (Z.pos m * 2 ^ (Z.neg k + 1119)) 1119).
    rewrite <- (rne_scale (Z.pos k) (Z.neg k + 1119)) by lia.
    f_equal. lia.
Qed.

Lemma volume_to_255_saturated x :
  Float.ltb x Float.one = false -> volume_to_255 (VFloat x) = Ok 255.
Proof.
  intros Hlt. unfold volume_to_255, py_min_float. cbn [as_num].
  rewrite Hlt. reflexivity.
Qed.

(** [round(x * 255)] is the integer nearest to the float nearest to the
    exact product. *)
Lemma volume_to_255_scaled m e :
  Float.valid (S754_finite false m e) = true ->
  Float.ltb (S754_finite false m e) Float.one = true ->
  volume_to_255 (VFloat (S754_finite false m e))
  = Ok (rne (round53 (255 * scaled (S754_finite false m e))) 1119).
Proof.
  intros Hvalid Hlt.
  destruct (below_one_mantissa false m e Hvalid Hlt) as [Hm He].
  destruct (valid_canonical false m e Hvalid) as (Hlo & _ & _).
  unfold volume_to_255, py_min_float. cbn [as_num mbind result_bind].
  rewrite Hlt. cbn [num_mul_int]. unfold float_mul_int.
  rewrite float_of_int_255. cbn [mbind result_bind].
  rewrite mul_255_finite. clear Hvalid Hlt.
  assert (H45 : 2 ^ 45 = 35184372088832) by reflexivity.
  assert (H255 : Z.pos 8972014882652160 = 255 * 35184372088832)
    by reflexivity.
  assert (Hbound : Z.pos (m * 8972014882652160) <= 255 * 2 ^ (- (e + -45))).
  { replace (- (e + -45)) with (- e + 45) by lia.
    rewrite Z.pow_add_r by lia. rewrite Pos2Z.inj_mul.
    rewrite H45, H255. nia. }
  destruct (round_aux_scaled (Z.pos (m * 8972014882652160)) (e + -45)
              ltac:(lia) ltac:(lia) ltac:(lia) Hbound) as [Hval Hshape].
  assert (Hexact : Z.pos (m * 8972014882652160) * 2 ^ (e + -45 + 1119)
                   = 255 * scaled (S754_finite false m e)).
  { cbn [scaled]. rewrite Pos2Z.inj_mul, H255, <- H45.
    replace (e + 1119) with (45 + (e + -45 + 1119)) by lia.
    rewrite (Z.pow_add_r 2 45) by lia. ring. }
  rewrite Hexact in Hval. rewrite <- Hval.
  destruct Hshape as [Hz|(m' & e' & Hf & He')]; [rewrite Hz|rewrite Hf].
  - cbn [py_round scaled]. now rewrite rne_zero by lia.
  - cbn [py_round]. now rewrite nearest_even_scaled by lia.
Qed.

(** The conversion of a valid nonnegative level is between 0 and 255. *)
Lemma volume_to_255_range x n :
  Float.valid x = true ->
  Float.leb Float.zero x = true ->
  volume_to_255 (VFloat x) = Ok n ->
  0 <= n <= 255.
Proof.
  intros Hvalid Hnonneg Hn.
  destruct (Float.ltb x Float.one) eqn:Hlt.
  - destruct (mul_255_below_one x Hvalid Hnonneg Hlt) as (k & Hk & Hrange).
    unfold volume_to_255, py_min_float in Hn.
    cbn [as_num mbind result_bind] in Hn. rewrite Hlt in Hn.
    cbn [num_mul_int] in Hn. unfold float_mul_int in Hn.
    rewrite float_of_int_255 in Hn. cbn [mbind result_bind] in Hn.
    rewrite Hk in Hn. injection Hn as <-. exact Hrange.
  - rewrite (volume_to_255_saturated x Hlt) in Hn. injection Hn as <-. lia.
Qed.

(** A louder level never converts to a smaller integer. *)
Lemma volume_to_255_monotone x y a b :
  Float.valid x = true -> Float.valid y = true ->
  Float.leb Float.zero x = true -> Float.leb x y = true ->
  volume_to_255 (VFloat x) = Ok a ->
  volume_to_255 (VFloat y) = Ok b ->
  0 <= a /\ a <= b /\ b <= 255.
Proof.
  intros Hvx Hvy H0 Hle Ha Hb.
  pose proof (volume_to_255_range x a Hvx H0 Ha) as Hra.
  destruct (Float.ltb y Float.one) eqn:Hy.
  - destruct (Float.ltb x Float.one) eqn:Hx.
    2:{ rewrite (not_below_one_above x y H0 Hle Hx) in Hy. discriminate Hy. }
    destruct x as [sx|[|]| |[|] m1 e1].
    + assert (Ha0 : a = 0) by (destruct sx; vm_compute in Ha; congruence).
      destruct y as [sy|[|]| |[|] m2 e2].
      * assert (b = 0) by (destruct sy; vm_compute in Hb; congruence). lia.
      * discriminate Hle.
      * discriminate Hy.
      * discriminate Hy.
      * discriminate Hle.
      * pose proof (volume_to_255_range _ b Hvy eq_refl Hb). lia.
    + discriminate H0.
    + discriminate Hx.
    + discriminate H0.
    + discriminate H0.
    + destruct y as [sy|[|]| |[|] m2 e2].
      * discriminate Hle.
      * discriminate Hle.
      * discriminate Hy.
      * discriminate Hy.
      * discriminate Hle.
      * rewrite (volume_to_255_scaled m1 e1 Hvx Hx) in Ha.
        rewrite (volume_to_255_scaled m2 e2 Hvy Hy) in Hb.
        injection Ha as <-. injection Hb as <-.
        pose proof (volume_to_255_range _ _ Hvy eq_refl
                      (volume_to_255_scaled m2 e2 Hvy Hy)) as Hrb.
        pose proof (leb_scaled m1 e1 m2 e2 Hvx Hvy Hle) as Hs.
        destruct (valid_canonical false m1 e1 Hvx) as (He1 & _ & _).
        assert (Hpos : 0 < scaled (S754_finite false m1 e1)).
        { apply Z.mul_pos_pos; [lia|]. apply Z.pow_pos_nonneg; lia. }
        cbn [scaled] in *.
        split; [exact (proj1 Hra)|]. split; [|exact (proj2 Hrb)].
        apply rne_monotone; [lia|]. apply round53_monotone; lia.
  - rewrite (volume_to_255_saturated y Hy) in Hb. injection Hb as <-. lia.
Qed.

Lemma volume_to_255_returns x :
  Float.valid x = true ->
  Float.leb Float.zero x = true ->
  exists n, volume_to_255 (VFloat x) = Ok n.
Proof.
  intros Hvalid Hnonneg.
  destruct (Float.ltb x Float.one) eqn:Hlt.
  - destruct (mul_255_below_one x Hvalid Hnonneg Hlt) as (k & Hk & _).
    exists k. unfold volume_to_255, py_min_float.
    cbn [as_num mbind result_bind]. rewrite Hlt.
    cbn [num_mul_int]. unfold float_mul_int.
    rewrite float_of_int_255. cbn [mbind result_bind]. exact Hk.
  - exists 255. exact (volume_to_255_saturated x Hlt).
Qed.

(** A level above a nonnegative level is nonnegative. *)
Lemma nonneg_above x y :
  Float.leb Float.zero x = true ->
  Float.leb x y = true ->
  Float.leb Float.zero y = true.
Proof.
  intros H0 Hle.
  destruct x as [sx|[|]| |[|] m1 e1].
  - exact Hle.
  - discriminate H0.
  - destruct y as [sy|[|]| |sy m2 e2]; try discriminate Hle. reflexivity.
  - discriminate H0.
  - discriminate H0.
  - destruct y as [sy|[|]| |[|] m2 e2].
    + discriminate Hle.
    + discriminate Hle.
    + reflexivity.
    + discriminate Hle.
    + discriminate Hle.
    + reflexivity.
Qed.

Section VolumeOrder.

Context `{Imports}.

(** X21.  The state query of media players is monotone in the volume: for
    two valid float levels [0.0 <= x <= y], infinite [y] included, both
    queries return, and the brightness reported for [x] is at most the one
    reported for [y]; both lie between 0 and 100. *)
Theorem X21_volume_monotone e1 e2 x y :
  domain e1 = media_player_DOMAIN ->
  domain e2 = media_player_DOMAIN ->
  attributes e1 !! media_player_ATTR_MEDIA_VOLUME_LEVEL = Some (VFloat x) ->
  attributes e2 !! media_player_ATTR_MEDIA_VOLUME_LEVEL = Some (VFloat y) ->
  Float.valid x = true ->
  Float.valid y = true ->
  Float.leb Float.zero x = true ->
  Float.leb x y = true ->
  exists b1 b2,
    query_device e1
      = Ok {| on := is_on e1; online := true; brightness := b1 |}
    /\ query_device e2
       = Ok {| on := is_on e2; online := true; brightness := b2 |}
    /\ 0 <= b1 /\ b1 <= b2 /\ b2 <= 100.
Proof.
  intros Hd1 Hd2 Hx Hy Hvx Hvy H0 Hle.
  pose proof (nonneg_above x y H0 Hle) as H0y.
  destruct (volume_to_255_returns x Hvx H0) as [a Ha].
  destruct (volume_to_255_returns y Hvy H0y) as [b Hb].
  destruct (volume_to_255_monotone x y a b Hvx Hvy H0 Hle Ha Hb)
    as (Ha0 & Hab & Hb255).
  exists (100 * a / 255), (100 * b / 255).
  rewrite (query_device_media e1 Hd1), (query_device_media e2 Hd2).
  unfold volume_level. rewrite Hx, Hy, Ha, Hb.
  cbn [mbind result_bind].
  rewrite (percent_chain_byte a), (percent_chain_byte b) by lia.
  cbn [mbind result_bind].
  split; [reflexivity|]. split; [reflexivity|].
  pose proof (percent_byte_range a ltac:(lia)).
  pose proof (percent_byte_range b ltac:(lia)).
  split; [lia|]. split; [|lia].
  apply Z.div_le_mono; lia.
Qed.

End VolumeOrder.

Lemma X21_tv_quiet_and_half :
  exists b1 b2,
    query_device
      (living_room_tv "playing"
         {[ "volume_level" := VFloat (Float.div (Float.exact 2)
                                         (Float.exact 100)) ]})
    = Ok {| on := true; online := true; brightness := b1 |}
    /\ query_device
         (living_room_tv "playing" {[ "volume_level" := VFloat Float.half ]})
       = Ok {| on := true; online := true; brightness := b2 |}
    /\ 0 <= b1 /\ b1 <= b2 /\ b2 <= 100.
Proof.
  exact (X21_volume_monotone
           (living_room_tv "playing"
              {[ "volume_level" := VFloat (Float.div (Float.exact 2)
                                              (Float.exact 100)) ]})
           (living_room_tv "playing" {[ "volume_level" := VFloat Float.half ]})
           (Float.div (Float.exact 2) (Float.exact 100)) Float.half
           eq_refl eq_refl eq_refl eq_refl eq_refl eq_refl eq_refl eq_refl).
Defined.

(** ** The generic brightness outside 0 to 100 *)

Lemma brightness_chain_quot n :
  -1000 <= n <= 1000 ->
  brightness_chain (VInt n) = Ok (Z.quot (n * 255) 100).
Proof.
  intros Hn.
  assert (Hc : check_brightness_quot n = true).
  { revert n Hn. apply Z_range_check. vm_compute. reflexivity. }
  unfold check_brightness_quot in Hc.
  destruct (brightness_chain (VInt n)) as [b|]; [|discriminate Hc].
  apply Z.eqb_eq in Hc. now subst.
Qed.

Section ResolveRange.

Context `{Imports}.

(** X22.  The generic brightness branch does not clamp the percentage: for
    an integer [n] between -1000 and 1000 the brightness passed on is
    [n * 255 / 100] truncated towards zero, so it exceeds 255 when [n]
    exceeds 100 and is negative when [n] is below 0.  At 12820 the float
    computation falls below the exact quotient 32691. *)
Theorem X22_generic_brightness_not_clamped entity_id params n :
  prefix_before "." entity_id <> "media_player" ->
  prefix_before "." entity_id <> "cover" ->
  params !! "brightness" = Some (VInt n) ->
  (-1000 <= n <= 1000 ->
   determine_service entity_id COMMAND_BRIGHTNESS params =
     Ok (SERVICE_TURN_ON,
         <["brightness" := VInt (Z.quot (n * 255) 100)]>
           {[ ATTR_ENTITY_ID := VStr entity_id ]})
   /\ (100 < n -> 255 < Z.quot (n * 255) 100)
   /\ (n < 0 -> Z.quot (n * 255) 100 < 0))
  /\ (n = 12820 ->
      determine_service entity_id COMMAND_BRIGHTNESS params =
        Ok (SERVICE_TURN_ON,
            <["brightness" := VInt 32690]>
              {[ ATTR_ENTITY_ID := VStr entity_id ]})).
Proof.
  intros Hmp Hcv Hb.
  rewrite determine_service_generic_brightness by assumption.
  unfold dict_get. rewrite Hb. split.
  - intros Hn. rewrite (brightness_chain_quot n Hn). split; [reflexivity|].
    split; intros Hlt.
    + assert (256 <= Z.quot (n * 255) 100); [|lia].
      rewrite Z.quot_div_nonneg by lia.
      apply Z.div_le_lower_bound; lia.
    + assert (Hq : Z.quot (n * 255) 100 = - ((- n * 255) / 100)).
      { rewrite <- Z.quot_div_nonneg by lia.
        rewrite <- Z.quot_opp_l by lia. f_equal. lia. }
      assert (1 <= (- n * 255) / 100)
        by (apply Z.div_le_lower_bound; lia).
      lia.
  - intros ->. reflexivity.
Qed.

End ResolveRange.

Lemma X22_kitchen_200_percent :
  determine_service "light.kitchen" COMMAND_BRIGHTNESS
    {[ "brightness" := VInt 200 ]}
  = Ok (SERVICE_TURN_ON,
        <["brightness" := VInt 510]> (base_args "light.kitchen")).
Proof.
  refine (proj1 (proj1 (X22_generic_brightness_not_clamped "light.kitchen"
                          {[ "brightness" := VInt 200 ]} 200 _ _ eq_refl)
                   _)).
  - vm_compute; discriminate.
  - vm_compute; discriminate.
  - lia.
Defined.

(** ** The state query of a media player *)

(** An [int] is below 1.0 exactly when it is below 1. *)
Lemma Z_ltb_one n : Float.Z_ltb n Float.one = (n <? 1).
Proof.
  unfold Float.Z_ltb, Float.one. cbn [cond_Zopp].
  assert (Hp : 2 ^ Z.pos 52 = 4503599627370496) by reflexivity.
  rewrite Hp.
  destruct (Z.ltb_spec n 1);
    destruct (Z.ltb_spec (n * 4503599627370496) 4503599627370496);
    try reflexivity; lia.
Qed.

(** The conversion of an [int] level: 255 from 1 on, [n * 255] below. *)
Lemma volume_to_255_int v n :
  as_num v = Some (NInt n) ->
  volume_to_255 v = Ok (if n <? 1 then n * 255 else 255).
Proof.
  intros Hv. unfold volume_to_255, py_min_float.
  rewrite Hv, Z_ltb_one. destruct (n <? 1); reflexivity.
Qed.

Lemma int_level_percent n :
  -100 <= n <= 0 -> percent_chain (VInt (n * 255)) = Ok (100 * n).
Proof.
  intros Hn.
  assert (Hc : check_int_level n = true).
  { revert n Hn. apply Z_range_check. vm_compute. reflexivity. }
  unfold check_int_level in Hc.
  destruct (percent_chain (VInt (n * 255))) as [p|]; [|discriminate Hc].
  apply Z.eqb_eq in Hc. now subst.
Qed.

Section MediaPlayerQuery.

Context `{Imports}.

(** C5.  For a media player [query_device] is the volume conversion
    [round(min(1.0, level) * 255)] of the volume level followed by the
    percent scaling, and the brightness attribute plays no part: the
    result depends on the state and the volume level alone.  A missing
    level counts as 1.0 when on and 0.0 when off, and reports 100 and 0.
    An [int] level from 1 on is clamped and reports 100; an [int] level
    [n] between -100 and 0 is not clamped and reports [100 * n].  A float
    level that is not below 1.0, an infinity or a NaN included, is clamped:
    it converts to 255 and reports 100.  A float zero reports 0.  A
    positive float level [x] below 1.0 converts to the integer nearest,
    ties to even, to the float nearest to the exact product [255 * x],
    which lies between 0 and 255, and that integer is scaled.  A level of
    0.5 with a state other than off reports a brightness of 50. *)
Theorem C5_media_player_volume e :
  domain e = media_player_DOMAIN ->
  query_device e =
    (b255 ← volume_to_255 (volume_level e);
     b ← percent_chain (VInt b255);
     Ok {| on := is_on e; online := true; brightness := b |})
  /\ (forall e',
      domain e' = media_player_DOMAIN ->
      state e' = state e ->
      attributes e' !! media_player_ATTR_MEDIA_VOLUME_LEVEL =
        attributes e !! media_player_ATTR_MEDIA_VOLUME_LEVEL ->
      query_device e' = query_device e)
  /\ (attributes e !! media_player_ATTR_MEDIA_VOLUME_LEVEL = None ->
      query_device e =
        Ok {| on := is_on e; online := true;
              brightness := if is_on e then 100 else 0 |})
  /\ (forall v n,
      attributes e !! media_player_ATTR_MEDIA_VOLUME_LEVEL = Some v ->
      as_num v = Some (NInt n) ->
      (1 <= n ->
       query_device e =
         Ok {| on := is_on e; online := true; brightness := 100 |})
      /\ (-100 <= n <= 0 ->
          query_device e =
            Ok {| on := is_on e; online := true; brightness := 100 * n |}))
  /\ (forall x,
      volume_level e = VFloat x ->
      Float.ltb x Float.one = false ->
      volume_to_255 (volume_level e) = Ok 255
      /\ query_device e =
           Ok {| on := is_on e; online := true; brightness := 100 |})
  /\ (forall s,
      volume_level e = VFloat (S754_zero s) ->
      query_device e =
        Ok {| on := is_on e; online := true; brightness := 0 |})
  /\ (forall m ex,
      volume_level e = VFloat (S754_finite false m ex) ->
      Float.valid (S754_finite false m ex) = true ->
      Float.ltb (S754_finite false m ex) Float.one = true ->
      let b255 := rne (round53 (255 * scaled (S754_finite false m ex))) 1119 in
      volume_to_255 (volume_level e) = Ok b255
      /\ 0 <= b255 <= 255
      /\ query_device e =
           Ok {| on := is_on e; online := true;
                 brightness := 100 * b255 / 255 |})
  /\ (attributes e !! media_player_ATTR_MEDIA_VOLUME_LEVEL
        = Some (VFloat Float.half) ->
      state e <> STATE_OFF ->
      query_device e = Ok {| on := true; online := true; brightness := 50 |}).
Proof.
  intros Hd. rewrite (query_device_media e Hd).
  split; [reflexivity|]. repeat apply conj.
  - intros e' Hd' Hs Hv. rewrite (query_device_media e' Hd').
    unfold volume_level, is_on. now rewrite Hs, Hv.
  - intros Hv. unfold volume_level. rewrite Hv.
    now destruct (is_on e).
  - intros v n Hv Hn. unfold volume_level. rewrite Hv.
    rewrite (volume_to_255_int v n Hn). split.
    + intros Hle. destruct (Z.ltb_spec n 1); [lia|]. reflexivity.
    + intros Hrange. destruct (Z.ltb_spec n 1); [|lia].
      cbn [mbind result_bind]. now rewrite (int_level_percent n Hrange).
  - intros x Hx Hlt. rewrite Hx.
    rewrite (volume_to_255_saturated x Hlt). split; reflexivity.
  - intros s Hs. rewrite Hs. now destruct s.
  - intros m ex Hx Hvalid Hlt b255. rewrite Hx.
    pose proof (volume_to_255_scaled m ex Hvalid Hlt) as Hv.
    fold b255 in Hv.
    pose proof (volume_to_255_range _ b255 Hvalid eq_refl Hv) as Hrange.
    rewrite Hv. split; [reflexivity|]. split; [exact Hrange|].
    cbn [mbind result_bind]. now rewrite (percent_chain_byte b255 Hrange).
  - intros Hv Hs. unfold volume_level, is_on. rewrite Hv.
    rewrite (eqb_string_false _ _ Hs). reflexivity.
Qed.

End MediaPlayerQuery.

Lemma C5_tv_half_volume :
  query_device
    (living_room_tv "playing" {[ "volume_level" := VFloat Float.half ]})
  = Ok {| on := true; online := true; brightness := 50 |}
  /\ query_device (living_room_tv "playing" {[ "volume_level" := VInt 2 ]})
     = Ok {| on := true; online := true; brightness := 100 |}
  /\ query_device (living_room_tv "playing" {[ "volume_level" := VInt 0 ]})
     = Ok {| on := true; online := true; brightness := 0 |}
  /\ query_device (living_room_tv "off" ∅)
     = Ok {| on := false; online := true; brightness := 0 |}.
Proof.
  split; [|split; [|split]].
  - refine (proj2 (proj2 (proj2 (proj2 (proj2 (proj2 (proj2
              (C5_media_player_volume
                 (living_room_tv "playing"
                    {[ "volume_level" := VFloat Float.half ]})
                 eq_refl))))))) _ _).
    + reflexivity.
    + discriminate.
  - refine (proj1 (proj1 (proj2 (proj2 (proj2
              (C5_media_player_volume
                 (living_room_tv "playing" {[ "volume_level" := VInt 2 ]})
                 eq_refl))))
              (VInt 2) 2 eq_refl eq_refl) _).
    lia.
  - refine (proj2 (proj1 (proj2 (proj2 (proj2
              (C5_media_player_volume
                 (living_room_tv "playing" {[ "volume_level" := VInt 0 ]})
                 eq_refl))))
              (VInt 0) 0 eq_refl eq_refl) _).
    lia.
  - exact (proj1 (proj2 (proj2
              (C5_media_player_volume (living_room_tv "off" ∅) eq_refl)))
             eq_refl).
Defined.
